(** * ImageBackingStore: a shallow embedding of src/ImageBackingStore.cpp

    The class [ImageBackingStore] gives the SCSI emulation one interface to
    an image that lives either in a run of raw SD card sectors, in the ROM
    drive of the microcontroller, or in a file of the SD card's filesystem.

    The store's own fields are a record; the code it calls but does not
    contain (the C library's [strtoul], the SdFat card, volume and file
    objects, the ROM drive and the ini reader) is a type class of
    collaborators, so every statement below holds for any implementation of
    them.  Calls into the collaborators are recorded in a call log, so that
    "this method does not touch the file" is a statement about the log.
    The [logmsg]/[dbgmsg] diagnostics have no effect on the store and are
    left out. *)

From Stdlib Require Import ZArith List String Ascii Bool Lia.
From Stdlib Require Import Strings.Byte.
Import ListNotations.

Open Scope string_scope.
Open Scope Z_scope.

(** ** Machine integers *)

(** [uint32_t] and [uint64_t] values are integers reduced modulo the width. *)
Definition u32 (z : Z) : Z := z mod 2 ^ 32.
Definition u64 (z : Z) : Z := z mod 2 ^ 64.

(** [size_t] and [ssize_t] are the 32-bit types of the firmware's ARM
    targets; [return count] in a function returning [ssize_t] converts. *)
Definition ssize_of_size (count : Z) : Z :=
  if count mod 2 ^ 32 <? 2 ^ 31 then count mod 2 ^ 32
  else count mod 2 ^ 32 - 2 ^ 32.

Definition SD_SECTOR_SIZE : Z := 512.

(** Constants of headers that are not part of the source file: SdFat's
    read-only attribute bit and open flags, and the name of the ini file. *)
Definition FS_ATTRIB_READ_ONLY : Z := 1.
Definition O_RDONLY : Z := 0.
Definition O_RDWR : Z := 2.
Definition CONFIGFILE : string := "zuluscsi.ini".

(** ** C strings *)

(** A C string is the characters before its terminating NUL. *)
Definition deref (p : string) : ascii :=
  match p with
  | EmptyString => zero
  | String c _ => c
  end.

(** [p + 1]; one past the terminator the contents are not those of the
    string, and the constructor only reads them before it rejects the name. *)
Definition next (p : string) : string :=
  match p with
  | EmptyString => EmptyString
  | String _ t => t
  end.

Fixpoint advance (n : nat) (p : string) : string :=
  match n with
  | O => p
  | S n' => advance n' (next p)
  end.

Definition tolower (c : ascii) : ascii :=
  let n := N_of_ascii c in
  if ((65 <=? n) && (n <=? 90))%N then ascii_of_N (n + 32) else c.

(** [strncasecmp]: difference of the first pair of characters that differ
    after lower-casing, within the first [n] characters and up to a NUL. *)
Fixpoint strncasecmp (s1 s2 : string) (n : nat) : Z :=
  match n with
  | O => 0
  | S n' =>
      let c1 := tolower (deref s1) in
      let c2 := tolower (deref s2) in
      if negb (Ascii.eqb c1 c2) then
        Z.of_N (N_of_ascii c1) - Z.of_N (N_of_ascii c2)
      else if Ascii.eqb c1 zero then 0
      else strncasecmp (next s1) (next s2) n'
  end.

Arguments strncasecmp : simpl never.

(** ** Collaborators *)

(** The calls the store makes into code outside the file. *)
Inductive call : Type :=
| Card_sectorCount
| Card_readSectors (sector count : Z)
| Card_writeSectors (sector count : Z)
| Rom_checkPresent
| Rom_read (start count : Z)
| Sd_attrib (path : string)
| Sd_open (path : string) (oflag : Z)
| Ini_getbool (section key : string)
| Fs_isOpen
| Fs_size
| Fs_curPosition
| Fs_contiguousRange
| Fs_flush
| Fs_seek (pos : Z)
| Fs_read (count : Z)
| Fs_write (count : Z)
| Fs_close.

(** The block device [SD.card()] points to; [m_blockdev] is that pointer
    or null.  The constructor dereferences [SD.card()] without a test, so
    the pointer it returns is taken to be that of the card. *)
Inductive blockdev : Type := SdCard.

(** [F] is the state of an [FsFile] object, [W] the state of everything
    else: card contents, filesystem, ROM drive, configuration file. *)
Class Collaborators (F W : Type) : Type := {
  (* C library: [strtoul nptr base] gives the value and [*endptr] *)
  strtoul : string -> Z -> Z * string;
  (* SdCard *)
  sectorCount : W -> Z;
  readSectors : Z -> Z -> W -> bool * list byte * W;
  writeSectors : Z -> list byte -> Z -> W -> bool * W;
  (* ROM drive: presence, and the [imagesize] field of the header it fills *)
  romDriveCheckPresent : W -> bool * Z;
  romDriveRead : Z -> Z -> W -> bool * list byte;
  (* SdFs volume *)
  attrib : string -> W -> Z;
  open : string -> Z -> W -> F * W;
  (* minIni *)
  ini_getbool : string -> string -> bool -> string -> W -> bool;
  (* FsFile *)
  FsFile_new : F;
  FsFile_isOpen : F -> bool;
  FsFile_size : F -> Z;
  FsFile_curPosition : F -> Z;
  (* the two out-parameters come in with the caller's values *)
  FsFile_contiguousRange : F -> Z -> Z -> W -> bool * Z * Z;
  FsFile_flush : F -> W -> F * W;
  FsFile_seek : F -> Z -> W -> bool * F * W;
  FsFile_read : F -> Z -> W -> Z * list byte * F * W;
  FsFile_write : F -> list byte -> Z -> W -> Z * F * W;
  FsFile_close : F -> W -> bool * F * W;
  (* SdFat's contract: a file object is closed when it is constructed and
     after [close()], whatever [close()] returns *)
  FsFile_new_closed : FsFile_isOpen FsFile_new = false;
  FsFile_close_closed :
    forall f w, FsFile_isOpen (snd (fst (FsFile_close f w))) = false
}.

(** ** The store *)

Section Store.

Context {F W : Type} {collab : Collaborators F W}.

Record store : Type := mkStore {
  m_israw : bool;
  m_isrom : bool;
  m_isreadonly_attr : bool;
  m_romhdr_imagesize : Z;
  m_fsfile : F;
  m_blockdev : option blockdev;
  m_bgnsector : Z;
  m_endsector : Z;
  m_cursector : Z
}.

Definition set_israw (b : bool) (s : store) : store :=
  mkStore b (m_isrom s) (m_isreadonly_attr s) (m_romhdr_imagesize s)
    (m_fsfile s) (m_blockdev s) (m_bgnsector s) (m_endsector s) (m_cursector s).
Definition set_isrom (b : bool) (s : store) : store :=
  mkStore (m_israw s) b (m_isreadonly_attr s) (m_romhdr_imagesize s)
    (m_fsfile s) (m_blockdev s) (m_bgnsector s) (m_endsector s) (m_cursector s).
Definition set_isreadonly_attr (b : bool) (s : store) : store :=
  mkStore (m_israw s) (m_isrom s) b (m_romhdr_imagesize s)
    (m_fsfile s) (m_blockdev s) (m_bgnsector s) (m_endsector s) (m_cursector s).
Definition set_imagesize (z : Z) (s : store) : store :=
  mkStore (m_israw s) (m_isrom s) (m_isreadonly_attr s) z
    (m_fsfile s) (m_blockdev s) (m_bgnsector s) (m_endsector s) (m_cursector s).
Definition set_fsfile (f : F) (s : store) : store :=
  mkStore (m_israw s) (m_isrom s) (m_isreadonly_attr s) (m_romhdr_imagesize s)
    f (m_blockdev s) (m_bgnsector s) (m_endsector s) (m_cursector s).
Definition set_blockdev (d : option blockdev) (s : store) : store :=
  mkStore (m_israw s) (m_isrom s) (m_isreadonly_attr s) (m_romhdr_imagesize s)
    (m_fsfile s) d (m_bgnsector s) (m_endsector s) (m_cursector s).
Definition set_bgnsector (z : Z) (s : store) : store :=
  mkStore (m_israw s) (m_isrom s) (m_isreadonly_attr s) (m_romhdr_imagesize s)
    (m_fsfile s) (m_blockdev s) z (m_endsector s) (m_cursector s).
Definition set_endsector (z : Z) (s : store) : store :=
  mkStore (m_israw s) (m_isrom s) (m_isreadonly_attr s) (m_romhdr_imagesize s)
    (m_fsfile s) (m_blockdev s) (m_bgnsector s) z (m_cursector s).
Definition set_cursector (z : Z) (s : store) : store :=
  mkStore (m_israw s) (m_isrom s) (m_isreadonly_attr s) (m_romhdr_imagesize s)
    (m_fsfile s) (m_blockdev s) (m_bgnsector s) (m_endsector s) z.

(** [m_blockdev] used as a condition, and compared with [NULL]. *)
Definition bound (d : option blockdev) : bool :=
  match d with
  | Some _ => true
  | None => false
  end.

(** *** The monad of the methods

    A method runs in an environment, the state of the world outside the
    store and the log of the calls made so far, and either returns or stops
    the program at a failed [assert]. *)

Record env : Type := mkEnv {
  world : W;
  calls : list call
}.

Definition M (A : Type) : Type := env -> option (A * env).

Definition ret {A : Type} (a : A) : M A := fun e => Some (a, e).

Definition bind {A B : Type} (m : M A) (k : A -> M B) : M B :=
  fun e =>
    match m e with
    | Some (a, e') => k a e'
    | None => None
    end.

Definition assert (b : bool) : M unit :=
  fun e => if b then Some (tt, e) else None.

(** A call that may change the world. *)
Definition invoke {A : Type} (c : call) (f : W -> A * W) : M A :=
  fun e =>
    let (a, w) := f (world e) in
    Some (a, mkEnv w (calls e ++ [c])).

(** A call that only looks at the world or at a file object. *)
Definition query {A : Type} (c : call) (f : W -> A) : M A :=
  invoke c (fun w => (f w, w)).

End Store.

Arguments store F : clear implicits.
Arguments env W : clear implicits.
Arguments M W A : clear implicits.

Declare Scope store_scope.
Delimit Scope store_scope with st.
Notation "x <- m ;; k" := (bind m (fun x => k))
  (at level 61, m at next level, right associativity) : store_scope.
Notation "' p <- m ;; k" := (bind m (fun p => k))
  (at level 61, p pattern, m at next level, right associativity) : store_scope.
Notation "m ;;; k" := (bind m (fun _ => k))
  (at level 61, right associativity) : store_scope.
Open Scope store_scope.

Section Methods.

Context {F W : Type} {collab : Collaborators F W}.

(** *** Constructors *)

(** [ImageBackingStore::ImageBackingStore()].  [m_romhdr] is not assigned
    here; it is read only in ROM mode, which the other constructor enters
    after the ROM drive has filled it, so its first value is never seen. *)
Definition ImageBackingStore_new : store F :=
  mkStore false false false 0 FsFile_new None 0 0 0.

(** [ImageBackingStore::ImageBackingStore(filename, scsi_block_size)].
    What a collaborator returns is reduced to the width of the variable
    that receives it. *)
Definition ImageBackingStore_open (filename : string) (scsi_block_size : Z)
  : M W (store F) :=
  let s := ImageBackingStore_new in
  if strncasecmp filename "RAW:" 4 =? 0 then
    let '(v1, endptr) := strtoul (advance 4 filename) 0 in
    let s := set_bgnsector (u32 v1) s in
    let '(v2, endptr2) := strtoul (next endptr) 0 in
    let s := set_endsector (u32 v2) s in
    if negb (Ascii.eqb (deref endptr) ":") || negb (Ascii.eqb (deref endptr2) zero)
    then ret s
    else if negb (scsi_block_size mod SD_SECTOR_SIZE =? 0)
    then ret s
    else
      let s := set_israw true s in
      let s := set_blockdev (Some SdCard) s in
      n <- query Card_sectorCount sectorCount ;;
      let sectorCount := u32 n in
      if m_endsector s >=? sectorCount
      then ret (set_endsector (u32 (sectorCount - 1)) s)
      else ret s
  else if strncasecmp filename "ROM:" 4 =? 0 then
    '(present, imagesize) <- query Rom_checkPresent romDriveCheckPresent ;;
    let s := set_imagesize (u32 imagesize) s in
    if negb present
    then ret (set_imagesize 0 s)
    else ret (set_isrom true s)
  else
    a <- query (Sd_attrib filename) (attrib filename) ;;
    let s := set_isreadonly_attr (negb (Z.land FS_ATTRIB_READ_ONLY a =? 0)) s in
    f <- (if m_isreadonly_attr s
          then invoke (Sd_open filename O_RDONLY) (open filename O_RDONLY)
          else invoke (Sd_open filename O_RDWR) (open filename O_RDWR)) ;;
    let s := set_fsfile f s in
    sz <- query Fs_size (fun _ => FsFile_size (m_fsfile s)) ;;
    let sectorcount := u32 (u64 sz / SD_SECTOR_SIZE) in
    '(ok, b, e) <-
       query Fs_contiguousRange (FsFile_contiguousRange (m_fsfile s) 0 0) ;;
    let begin := u32 b in
    let end_ := u32 e in
    if ok && (end_ >=? u32 (begin + sectorcount))
          && (scsi_block_size mod SD_SECTOR_SIZE =? 0)
    then
      let s := set_israw true s in
      let s := set_blockdev (Some SdCard) s in
      let s := set_bgnsector begin s in
      sectorcount <-
        (if negb (end_ =? u32 (begin + sectorcount)) then
           let allocsize := u32 (end_ - begin + 1) in
           usealloc <- query (Ini_getbool "SCSI" "UseFATAllocSize")
                         (ini_getbool "SCSI" "UseFATAllocSize" false CONFIGFILE) ;;
           if usealloc then ret allocsize else ret sectorcount
         else ret sectorcount) ;;
      let s := set_endsector (u32 (begin + sectorcount - 1)) s in
      f <- invoke Fs_flush (FsFile_flush (m_fsfile s)) ;;
      ret (set_fsfile f s)
    else ret s.

(** *** Accessors *)

Definition isOpen (s : store F) : M W bool :=
  if m_israw s then ret (bound (m_blockdev s))
  else if m_isrom s then ret (m_romhdr_imagesize s >? 0)
  else query Fs_isOpen (fun _ => FsFile_isOpen (m_fsfile s)).

Definition isWritable (s : store F) : bool :=
  negb (m_isrom s) && negb (m_isreadonly_attr s).

Definition isRom (s : store F) : bool := m_isrom s.

Definition close (s : store F) : M W (bool * store F) :=
  if m_israw s then ret (true, set_blockdev None s)
  else if m_isrom s then ret (true, set_imagesize 0 s)
  else
    '(r, f) <- invoke Fs_close (FsFile_close (m_fsfile s)) ;;
    ret (r, set_fsfile f s).

Definition size (s : store F) : M W Z :=
  if m_israw s && bound (m_blockdev s)
  then ret (u64 (u32 (m_endsector s - m_bgnsector s + 1) * SD_SECTOR_SIZE))
  else if m_isrom s then ret (m_romhdr_imagesize s)
  else query Fs_size (fun _ => u64 (FsFile_size (m_fsfile s))).

(** The result is the returned flag and the two out-parameters, which come
    in as [b0] and [e0]. *)
Definition contiguousRange (s : store F) (b0 e0 : Z) : M W (bool * Z * Z) :=
  if m_israw s && bound (m_blockdev s)
  then ret (true, m_bgnsector s, m_endsector s)
  else if m_isrom s then ret (true, 0, 0)
  else
    '(ok, b, e) <-
       query Fs_contiguousRange (FsFile_contiguousRange (m_fsfile s) b0 e0) ;;
    ret (ok, u32 b, u32 e).

(** *** Positioned I/O *)

Definition seek (s : store F) (pos : Z) : M W (bool * store F) :=
  let sectornum := u32 (pos / SD_SECTOR_SIZE) in
  let s :=
    if m_israw s && negb (u64 (sectornum * SD_SECTOR_SIZE) =? pos)
    then set_israw false s else s in
  if m_israw s then
    let s := set_cursector (u32 (m_bgnsector s + sectornum)) s in
    ret (m_cursector s <=? m_endsector s, s)
  else if m_isrom s then
    let sectornum := u32 (pos / SD_SECTOR_SIZE) in
    assert (u64 (sectornum * SD_SECTOR_SIZE) =? pos) ;;;
    let s := set_cursector sectornum s in
    ret (u32 (m_cursector s * SD_SECTOR_SIZE) <? m_romhdr_imagesize s, s)
  else
    '(r, f) <- invoke (Fs_seek pos) (FsFile_seek (m_fsfile s) pos) ;;
    ret (r, set_fsfile f s).

(** The result is the returned count and what the call left in [buf]. *)
Definition read (s : store F) (count : Z) : M W (Z * list byte * store F) :=
  let sectorcount := u32 (count / SD_SECTOR_SIZE) in
  let s :=
    if m_israw s && negb (u64 (sectorcount * SD_SECTOR_SIZE) =? count)
    then set_israw false s else s in
  if m_israw s && bound (m_blockdev s) then
    '(ok, data) <- invoke (Card_readSectors (m_cursector s) sectorcount)
                     (readSectors (m_cursector s) sectorcount) ;;
    if ok
    then ret (ssize_of_size count, data,
              set_cursector (u32 (m_cursector s + sectorcount)) s)
    else ret (-1, data, s)
  else if m_isrom s then
    let sectorcount := u32 (count / SD_SECTOR_SIZE) in
    assert (u64 (sectorcount * SD_SECTOR_SIZE) =? count) ;;;
    let start := u32 (m_cursector s * SD_SECTOR_SIZE) in
    '(ok, data) <- query (Rom_read start count) (romDriveRead start count) ;;
    if ok
    then ret (ssize_of_size count, data,
              set_cursector (u32 (m_cursector s + sectorcount)) s)
    else ret (-1, data, s)
  else
    '(n, data, f) <- invoke (Fs_read count) (FsFile_read (m_fsfile s) count) ;;
    ret (n, data, set_fsfile f s).

Definition write (s : store F) (buf : list byte) (count : Z) : M W (Z * store F) :=
  let sectorcount := u32 (count / SD_SECTOR_SIZE) in
  let s :=
    if m_israw s && negb (u64 (sectorcount * SD_SECTOR_SIZE) =? count)
    then set_israw false s else s in
  if m_israw s && bound (m_blockdev s) then
    ok <- invoke (Card_writeSectors (m_cursector s) sectorcount)
            (writeSectors (m_cursector s) buf sectorcount) ;;
    if ok
    then ret (ssize_of_size count,
              set_cursector (u32 (m_cursector s + sectorcount)) s)
    else ret (0, s)
  else if m_isrom s then ret (0, s)
  else if m_isreadonly_attr s then ret (0, s)
  else
    '(n, f) <- invoke (Fs_write count) (FsFile_write (m_fsfile s) buf count) ;;
    ret (n, set_fsfile f s).

Definition flush (s : store F) : M W (store F) :=
  if negb (m_israw s) && negb (m_isrom s) && negb (m_isreadonly_attr s)
  then
    f <- invoke Fs_flush (FsFile_flush (m_fsfile s)) ;;
    ret (set_fsfile f s)
  else ret s.

Definition position (s : store F) : M W Z :=
  if negb (m_israw s) && negb (m_isrom s)
  then query Fs_curPosition (fun _ => u64 (FsFile_curPosition (m_fsfile s)))
  else ret 0.

End Methods.

(** ** Modes, operations and runs *)

(** The three modes are not a field: every method tests [m_israw] first,
    [m_isrom] second, and falls through to the file. *)
Inductive mode : Type := Raw | Rom | File.

Definition mode_of {F : Type} (s : store F) : mode :=
  if m_israw s then Raw else if m_isrom s then Rom else File.

(** A call of a public method, and what it returns. *)
Inductive op : Type :=
| OpIsOpen
| OpIsWritable
| OpIsRom
| OpClose
| OpSize
| OpContiguousRange (b0 e0 : Z)
| OpSeek (pos : Z)
| OpRead (count : Z)
| OpWrite (buf : list byte) (count : Z)
| OpFlush
| OpPosition.

Inductive result : Type :=
| RVoid
| RBool (b : bool)
| RSize (n : Z)
| RRange (ok : bool) (b e : Z)
| RRead (n : Z) (data : list byte).

(** A byte position or count that is not a whole number of sectors. *)
Definition unaligned (o : op) : Prop :=
  match o with
  | OpSeek pos => pos mod SD_SECTOR_SIZE <> 0
  | OpRead count => count mod SD_SECTOR_SIZE <> 0
  | OpWrite _ count => count mod SD_SECTOR_SIZE <> 0
  | _ => False
  end.

Section Runs.

Context {F W : Type} {collab : Collaborators F W}.

Definition exec (o : op) (s : store F) : M W (result * store F) :=
  match o with
  | OpIsOpen => b <- isOpen s ;; ret (RBool b, s)
  | OpIsWritable => ret (RBool (isWritable s), s)
  | OpIsRom => ret (RBool (isRom s), s)
  | OpClose => '(b, s') <- close s ;; ret (RBool b, s')
  | OpSize => n <- size s ;; ret (RSize n, s)
  | OpContiguousRange b0 e0 =>
      '(ok, b, e) <- contiguousRange s b0 e0 ;; ret (RRange ok b e, s)
  | OpSeek pos => '(b, s') <- seek s pos ;; ret (RBool b, s')
  | OpRead count => '(n, data, s') <- read s count ;; ret (RRead n data, s')
  | OpWrite buf count => '(n, s') <- write s buf count ;; ret (RSize n, s')
  | OpFlush => s' <- flush s ;; ret (RVoid, s')
  | OpPosition => n <- position s ;; ret (RSize n, s)
  end.

(** [steps x y]: some sequence of method calls, none of which stops at an
    assertion, leads from [x] to [y]. *)
Inductive steps : store F * env W -> store F * env W -> Prop :=
| steps_refl x : steps x x
| steps_step o s e r s1 e1 y :
    exec o s e = Some (r, s1, e1) -> steps (s1, e1) y -> steps (s, e) y.

(** The stores a program can hold: built by a constructor, then used. *)
Inductive reachable : store F -> env W -> Prop :=
| reach_new e : reachable ImageBackingStore_new e
| reach_open filename bs e0 s e :
    ImageBackingStore_open filename bs e0 = Some (s, e) -> reachable s e
| reach_exec o s e r s1 e1 :
    reachable s e -> exec o s e = Some (r, s1, e1) -> reachable s1 e1.

(** A name the [RAW:] branch of the constructor accepts, with the two
    values [strtoul] reads: the first number ends at a colon and the second
    at the end of the string. *)
Definition raw_descriptor (filename : string) (b e : Z) : Prop :=
  strncasecmp filename "RAW:" 4 = 0 /\
  exists endptr endptr2,
    strtoul (advance 4 filename) 0 = (b, endptr) /\
    deref endptr = ":"%char /\
    strtoul (next endptr) 0 = (e, endptr2) /\
    deref endptr2 = zero.

(** The store the [RAW:] branch leaves when it rejects the name. *)
Definition unopened_raw (b e : Z) : store F :=
  mkStore false false false 0 FsFile_new None (u32 b) (u32 e) 0.

(** What the last branch of the constructor learns about the file before
    it chooses between Raw and File mode: the file object and the world
    after [SD.open], the read-only attribute, and the locals [sectorcount],
    [begin] and [end] with the result of the range query. *)
Record probe : Type := mkProbe {
  p_file : F;
  p_world : W;
  p_readonly : bool;
  p_sectorcount : Z;
  p_contiguous : bool;
  p_begin : Z;
  p_end : Z
}.

Definition file_probe (filename : string) (w : W) : probe :=
  let ro := negb (Z.land FS_ATTRIB_READ_ONLY (attrib filename w) =? 0) in
  let '(f, w1) := open filename (if ro then O_RDONLY else O_RDWR) w in
  let '(ok, b, e) := FsFile_contiguousRange f 0 0 w1 in
  mkProbe f w1 ro (u32 (u64 (FsFile_size f) / SD_SECTOR_SIZE)) ok (u32 b) (u32 e).

End Runs.

(** ** A test double for the collaborators

    An implementation of the collaborators with which the methods can be
    run: a card of a given number of sectors, at most one file, an
    optional ROM image, and the C library's [strtoul] as the BSD and newlib
    sources have it (32-bit [unsigned long]). *)

Module Mock.

Definition isspace (c : ascii) : bool :=
  let n := N_of_ascii c in
  ((n =? 32) || ((9 <=? n) && (n <=? 13)))%N.

(** The value of a digit or letter, before it is compared with the base. *)
Definition digit_value (c : ascii) : option Z :=
  let n := Z.of_N (N_of_ascii c) in
  if (48 <=? n) && (n <=? 57) then Some (n - 48)
  else if (65 <=? n) && (n <=? 90) then Some (n - 65 + 10)
  else if (97 <=? n) && (n <=? 122) then Some (n - 97 + 10)
  else None.

Definition ULONG_MAX : Z := 2 ^ 32 - 1.

Fixpoint skip_space (p : string) : string :=
  match p with
  | String c t => if isspace c then skip_space t else p
  | EmptyString => p
  end.

(** The conversion loop: the accumulator, the [any] flag (1 after a digit,
    -1 after an overflow) and the first character not consumed. *)
Fixpoint scan (base : Z) (p : string) (acc any : Z) : Z * Z * string :=
  match p with
  | EmptyString => (acc, any, p)
  | String c t =>
      match digit_value c with
      | None => (acc, any, p)
      | Some d =>
          if d >=? base then (acc, any, p)
          else if (any <? 0) || (acc >? ULONG_MAX / base)
                  || ((acc =? ULONG_MAX / base) && (d >? ULONG_MAX mod base))
          then scan base t acc (-1)
          else scan base t (acc * base + d) 1
      end
  end.

Definition bsd_strtoul (nptr : string) (base : Z) : Z * string :=
  let p := skip_space nptr in
  let neg := Ascii.eqb (deref p) "-" in
  let p := if neg || Ascii.eqb (deref p) "+" then next p else p in
  let hex := ((base =? 0) || (base =? 16)) && Ascii.eqb (deref p) "0"
             && (Ascii.eqb (deref (next p)) "x" || Ascii.eqb (deref (next p)) "X") in
  let p := if hex then next (next p) else p in
  let base := if hex then 16
              else if base =? 0 then (if Ascii.eqb (deref p) "0" then 8 else 10)
              else base in
  let '(acc, any, rest) := scan base p 0 0 in
  let acc := if any <? 0 then ULONG_MAX
             else if neg then (- acc) mod 2 ^ 32 else acc in
  (acc, if any =? 0 then nptr else rest).

Record mfile : Type := mkFile {
  f_open : bool;
  f_size : Z;
  f_pos : Z;
  f_range : option (Z * Z)
}.

Record mworld : Type := mkWorld {
  w_sectors : Z;                        (* sectors of the card *)
  w_rom : option Z;                     (* size of the ROM image, if any *)
  w_attrib : Z;                         (* attributes of the file *)
  w_file : option (Z * option (Z * Z)); (* its size and contiguous range *)
  w_usealloc : bool                     (* [SCSI] UseFATAllocSize *)
}.

Definition closed : mfile := mkFile false 0 0 None.

Definition mopen (path : string) (oflag : Z) (w : mworld) : mfile * mworld :=
  match w_file w with
  | Some (sz, rg) => (mkFile true sz 0 rg, w)
  | None => (closed, w)
  end.

Definition mrange (f : mfile) (b0 e0 : Z) (w : mworld) : bool * Z * Z :=
  match f_open f, f_range f with
  | true, Some (b, e) => (true, b, e)
  | _, _ => (false, b0, e0)
  end.

Definition mseek (f : mfile) (pos : Z) (w : mworld) : bool * mfile * mworld :=
  if f_open f && (pos <=? f_size f)
  then (true, mkFile true (f_size f) pos (f_range f), w)
  else (false, f, w).

Definition mread (f : mfile) (count : Z) (w : mworld)
  : Z * list byte * mfile * mworld :=
  if f_open f then
    let n := Z.min count (f_size f - f_pos f) in
    (n, [], mkFile true (f_size f) (f_pos f + n) (f_range f), w)
  else (-1, [], f, w).

Definition mwrite (f : mfile) (buf : list byte) (count : Z) (w : mworld)
  : Z * mfile * mworld :=
  if f_open f then
    let p := f_pos f + count in
    (count, mkFile true (Z.max (f_size f) p) p (f_range f), w)
  else (0, f, w).

Definition mclose (f : mfile) (w : mworld) : bool * mfile * mworld :=
  (f_open f, closed, w).

#[global] Instance collab : Collaborators mfile mworld := {|
  strtoul := bsd_strtoul;
  sectorCount := w_sectors;
  readSectors sector count w := (sector + count <=? w_sectors w, [], w);
  writeSectors sector buf count w := (sector + count <=? w_sectors w, w);
  romDriveCheckPresent w :=
    match w_rom w with
    | Some n => (true, n)
    | None => (false, 0)
    end;
  romDriveRead start count w :=
    match w_rom w with
    | Some n => (start + count <=? n, [])
    | None => (false, [])
    end;
  attrib path := w_attrib;
  open := mopen;
  ini_getbool section key dflt inifile := w_usealloc;
  FsFile_new := closed;
  FsFile_isOpen := f_open;
  FsFile_size := f_size;
  FsFile_curPosition := f_pos;
  FsFile_contiguousRange := mrange;
  FsFile_flush f w := (f, w);
  FsFile_seek := mseek;
  FsFile_read := mread;
  FsFile_write := mwrite;
  FsFile_close := mclose;
  FsFile_new_closed := eq_refl;
  FsFile_close_closed f w := eq_refl
|}.

(** A card of 1000 sectors with no file and no ROM image. *)
Definition card_only : env mworld :=
  mkEnv (mkWorld 1000 None 0 None false) [].

(** The same card with a file of [sz] bytes, attributes [a], stored in the
    sectors [rg]. *)
Definition with_file (a sz : Z) (rg : option (Z * Z)) : env mworld :=
  mkEnv (mkWorld 1000 None a (Some (sz, rg)) false) [].

(** The same card with a ROM image of [n] bytes. *)
Definition with_rom (n : Z) : env mworld :=
  mkEnv (mkWorld 1000 (Some n) 0 None false) [].

(** The stores the constructor builds from [RAW:0:99] on the bare card,
    from [ROM:] with an image of 4096 bytes, and from a fragmented file of
    1000 bytes with and without the read-only attribute, each with the
    environment the constructor leaves. *)
Definition raw_0_99 : store mfile :=
  mkStore true false false 0 closed (Some SdCard) 0 99 0.
Definition raw_0_99_env : env mworld :=
  mkEnv (world card_only) [Card_sectorCount].

Definition rom_4096 : store mfile :=
  mkStore false true false 4096 closed None 0 0 0.
Definition rom_4096_env : env mworld :=
  mkEnv (world (with_rom 4096)) [Rom_checkPresent].

Definition readonly_file : store mfile :=
  mkStore false false true 0 (mkFile true 1000 0 None) None 0 0 0.
Definition readonly_file_env : env mworld :=
  mkEnv (world (with_file 1 1000 None))
    [Sd_attrib "image.img"; Sd_open "image.img" O_RDONLY; Fs_size;
     Fs_contiguousRange].

Definition writable_file : store mfile :=
  mkStore false false false 0 (mkFile true 1000 0 None) None 0 0 0.
Definition writable_file_env : env mworld :=
  mkEnv (world (with_file 0 1000 None))
    [Sd_attrib "image.img"; Sd_open "image.img" O_RDWR; Fs_size;
     Fs_contiguousRange].

End Mock.

(** ** What a file object that is not open is expected to do

    SdFat's file methods test [isOpen()] first and fail without opening
    anything.  The class does not rely on it; the statements about stores
    that have no file behind them take it as a hypothesis. *)

Section Contracts.

Context {F W : Type} {collab : Collaborators F W}.

Definition closed_file_stays_closed : Prop :=
  forall (f : F) (w : W),
    FsFile_isOpen f = false ->
    (forall pos, FsFile_isOpen (snd (fst (FsFile_seek f pos w))) = false) /\
    (forall count, FsFile_isOpen (snd (fst (FsFile_read f count w))) = false) /\
    (forall buf count,
       FsFile_isOpen (snd (fst (FsFile_write f buf count w))) = false) /\
    FsFile_isOpen (fst (FsFile_flush f w)) = false.

End Contracts.

(** ** Which collaborator a call goes to *)

Definition is_file_call (c : call) : bool :=
  match c with
  | Fs_isOpen | Fs_size | Fs_curPosition | Fs_contiguousRange | Fs_flush
  | Fs_seek _ | Fs_read _ | Fs_write _ | Fs_close => true
  | _ => false
  end.

Definition is_card_call (c : call) : bool :=
  match c with
  | Card_sectorCount | Card_readSectors _ _ | Card_writeSectors _ _ => true
  | _ => false
  end.

(** A call whose byte position or count is a whole number of sectors that
    fits the 32-bit sector variables of the methods. *)
Definition aligned (o : op) : Prop :=
  match o with
  | OpSeek pos => 0 <= pos < 2 ^ 41 /\ pos mod SD_SECTOR_SIZE = 0
  | OpRead count => 0 <= count < 2 ^ 32 /\ count mod SD_SECTOR_SIZE = 0
  | OpWrite _ count => 0 <= count < 2 ^ 32 /\ count mod SD_SECTOR_SIZE = 0
  | _ => True
  end.

(** ** A card kept in memory

    A second implementation of the collaborators, with which data written
    to the card can be read back: the card is the list of its bytes, there
    is no filesystem and no ROM image. *)

Module Ram.

Definition disk : Type := list byte.

Definition sectors (d : disk) : Z := Z.of_nat (List.length d) / SD_SECTOR_SIZE.

Definition in_range (sector count : Z) (d : disk) : bool :=
  (0 <=? sector) && (0 <=? count) && (sector + count <=? sectors d).

Definition rd (sector count : Z) (d : disk) : bool * list byte * disk :=
  if in_range sector count d
  then (true,
        firstn (Z.to_nat (count * SD_SECTOR_SIZE))
          (skipn (Z.to_nat (sector * SD_SECTOR_SIZE)) d),
        d)
  else (false, [], d).

Definition wr (sector : Z) (buf : list byte) (count : Z) (d : disk)
  : bool * disk :=
  if in_range sector count d
     && (Z.of_nat (List.length buf) =? count * SD_SECTOR_SIZE)
  then (true,
        (firstn (Z.to_nat (sector * SD_SECTOR_SIZE)) d ++ buf ++
         skipn (Z.to_nat ((sector + count) * SD_SECTOR_SIZE)) d)%list)
  else (false, d).

#[global] Instance collab : Collaborators unit disk := {|
  strtoul := Mock.bsd_strtoul;
  sectorCount := sectors;
  readSectors := rd;
  writeSectors := wr;
  romDriveCheckPresent d := (false, 0);
  romDriveRead start count d := (false, []);
  attrib path d := 0;
  open path oflag d := (tt, d);
  ini_getbool section key dflt inifile d := dflt;
  FsFile_new := tt;
  FsFile_isOpen f := false;
  FsFile_size f := 0;
  FsFile_curPosition f := 0;
  FsFile_contiguousRange f b0 e0 d := (false, b0, e0);
  FsFile_flush f d := (f, d);
  FsFile_seek f pos d := (false, f, d);
  FsFile_read f count d := (-1, [], f, d);
  FsFile_write f buf count d := (0, f, d);
  FsFile_close f d := (false, f, d);
  FsFile_new_closed := eq_refl;
  FsFile_close_closed f w := eq_refl
|}.

(** A card of four sectors of zeros, the store of [RAW:0:3] on it, and a
    sector of ones to write. *)
Definition blank : env disk := mkEnv (repeat x00 2048) [].

Definition raw_0_3 : store unit :=
  mkStore true false false 0 tt (Some SdCard) 0 3 0.
Definition raw_0_3_env : env disk :=
  mkEnv (repeat x00 2048) [Card_sectorCount].

Definition ones : list byte := repeat xff 512.

End Ram.

(** ** A promoted read-only file

    The store the constructor builds on the test double from a file of
    1024 bytes with the read-only attribute that lies in the sectors 100 to
    163: it is in Raw mode over the sectors 100 to 101, and keeps the file
    object. *)

Module Promoted.

Definition before : env Mock.mworld :=
  Mock.with_file 1 1024 (Some (100, 163)).

Definition image : Mock.mfile := Mock.mkFile true 1024 0 (Some (100, 163)).

Definition st : store Mock.mfile :=
  mkStore true false true 0 image (Some SdCard) 100 101 0.

Definition after : env Mock.mworld :=
  mkEnv (world before)
    [Sd_attrib "image.img"; Sd_open "image.img" O_RDONLY; Fs_size;
     Fs_contiguousRange; Ini_getbool "SCSI" "UseFATAllocSize"; Fs_flush].

End Promoted.

(** * Properties *)

(** ** Arithmetic of sectors *)

Lemma u32_range (z : Z) : 0 <= u32 z < 2 ^ 32.
Proof. unfold u32. apply Z.mod_pos_bound. lia. Qed.

Lemma u32_small (z : Z) : 0 <= z < 2 ^ 32 -> u32 z = z.
Proof. intros H. unfold u32. apply Z.mod_small. exact H. Qed.

Lemma u64_small (z : Z) : 0 <= z < 2 ^ 64 -> u64 z = z.
Proof. intros H. unfold u64. apply Z.mod_small. exact H. Qed.

(** A byte quantity that is not a multiple of the sector size fails the
    test [(uint64_t)sectors * SD_SECTOR_SIZE == bytes] of the methods. *)
Lemma misaligned_test (x : Z) :
  x mod SD_SECTOR_SIZE <> 0 ->
  (u64 (u32 (x / SD_SECTOR_SIZE) * SD_SECTOR_SIZE) =? x) = false.
Proof.
  intros Hx. apply Z.eqb_neq. intros Heq. apply Hx.
  rewrite <- Heq. unfold u64, SD_SECTOR_SIZE.
  rewrite Z.mod_mod_divide.
  - apply Z_mod_mult.
  - exists (2 ^ 55). reflexivity.
Qed.

(** ** The flags along a run *)

Ltac unfold_monad := unfold bind, ret, assert, invoke, query in *.

(** Case analysis on everything a hypothesis branches on. *)
Ltac break_step :=
  match goal with
  | H : Some _ = Some _ |- _ => inversion H; clear H; subst
  | H : (_, _) = (_, _) |- _ => inversion H; clear H; subst
  | H : None = Some _ |- _ => discriminate H
  | H : context [match ?x with _ => _ end] |- _ => destruct x eqn:?
  end.

(** Case analysis on the innermost thing the goal branches on. *)
Ltac break_goal :=
  match goal with
  | |- context [match ?x with _ => _ end] =>
      lazymatch x with
      | context [match _ with _ => _ end] => fail
      | _ => destruct x eqn:?; simpl
      end
  end.

Ltac break_all H := unfold_monad; simpl in H; repeat (break_step; simpl in * ).

Section Flags.

Context {F W : Type} {collab : Collaborators F W}.

Lemma mode_raw (s : store F) : mode_of s = Raw <-> m_israw s = true.
Proof. unfold mode_of. destruct (m_israw s), (m_isrom s); split; congruence. Qed.

Lemma mode_rom (s : store F) :
  mode_of s = Rom <-> m_israw s = false /\ m_isrom s = true.
Proof.
  unfold mode_of. destruct (m_israw s), (m_isrom s); intuition congruence.
Qed.

Lemma mode_file (s : store F) :
  mode_of s = File <-> m_israw s = false /\ m_isrom s = false.
Proof.
  unfold mode_of. destruct (m_israw s), (m_isrom s); intuition congruence.
Qed.

(** No method writes [m_isrom]. *)
Lemma exec_isrom (o : op) (s s1 : store F) (e e1 : env W) (r : result) :
  exec o s e = Some (r, s1, e1) -> m_isrom s1 = m_isrom s.
Proof.
  intros H. destruct o; unfold exec, isOpen, close, size, contiguousRange,
    seek, read, write, flush, position in H;
    break_all H; congruence.
Qed.

(** No method sets [m_israw]. *)
Lemma exec_israw (o : op) (s s1 : store F) (e e1 : env W) (r : result) :
  exec o s e = Some (r, s1, e1) -> m_israw s = false -> m_israw s1 = false.
Proof.
  intros H Hraw. destruct o; unfold exec, isOpen, close, size, contiguousRange,
    seek, read, write, flush, position in H; rewrite ?Hraw in H;
    break_all H; congruence.
Qed.

(** The constructors set at most one of the two flags. *)
Lemma open_flags (filename : string) (bs : Z) (e0 e : env W) (s : store F) :
  ImageBackingStore_open filename bs e0 = Some (s, e) ->
  m_israw s = true -> m_isrom s = false.
Proof.
  intros H. unfold ImageBackingStore_open in H.
  break_all H; simpl; congruence.
Qed.

Lemma reachable_flags (s : store F) (e : env W) :
  reachable s e -> m_israw s = true -> m_isrom s = false.
Proof.
  induction 1 as [e | fn bs e0 s e Hopen | o s e r s1 e1 Hreach IH Hexec].
  - discriminate.
  - eapply open_flags; eassumption.
  - intros Hraw. rewrite (exec_isrom _ _ _ _ _ _ Hexec).
    destruct (m_israw s) eqn:Hs.
    + apply IH; reflexivity.
    + rewrite (exec_israw _ _ _ _ _ _ Hexec Hs) in Hraw. discriminate.
Qed.

Lemma exec_file (o : op) (s s1 : store F) (e e1 : env W) (r : result) :
  exec o s e = Some (r, s1, e1) -> mode_of s = File -> mode_of s1 = File.
Proof.
  intros H Hm. apply mode_file in Hm as [Hraw Hrom]. apply mode_file. split.
  - eapply exec_israw; eassumption.
  - rewrite (exec_isrom _ _ _ _ _ _ H). exact Hrom.
Qed.

Lemma steps_file (x y : store F * env W) :
  steps x y -> mode_of (fst x) = File -> mode_of (fst y) = File.
Proof.
  induction 1 as [x | o s e r s1 e1 y Hexec Hsteps IH]; intros Hm.
  - exact Hm.
  - apply IH. simpl in *. eapply exec_file; eassumption.
Qed.

(** In File mode no method reaches an assertion: every call returns. *)
Lemma exec_file_returns (o : op) (s : store F) (e : env W) :
  mode_of s = File -> exists r s1 e1, exec o s e = Some (r, s1, e1).
Proof.
  intros Hm. apply mode_file in Hm as [Hraw Hrom].
  destruct o; unfold exec, isOpen, close, size, contiguousRange,
    seek, read, write, flush, position; rewrite ?Hraw, ?Hrom;
    unfold_monad; simpl;
    repeat break_goal; try congruence; eauto.
Qed.

End Flags.

(** ** Demotion from Raw to File mode *)

Section Demotion.

Context {F W : Type} {collab : Collaborators F W}.

(** What the file path of the three positioned methods does: it hands the
    byte quantity to the file object, and [write] first looks at the
    read-only attribute. *)
Lemma seek_file (s : store F) (pos : Z) (e : env W) :
  mode_of s = File ->
  seek s pos e =
  let '(r, f, w) := FsFile_seek (m_fsfile s) pos (world e) in
  Some (r, set_fsfile f s, mkEnv w (calls e ++ [Fs_seek pos])).
Proof.
  intros Hm. apply mode_file in Hm as [Hraw Hrom].
  unfold seek. rewrite Hraw. simpl. rewrite Hraw, Hrom.
  unfold_monad. destruct (FsFile_seek _ _ _) as [[r f] w]. reflexivity.
Qed.

Lemma read_file (s : store F) (count : Z) (e : env W) :
  mode_of s = File ->
  read s count e =
  let '(n, data, f, w) := FsFile_read (m_fsfile s) count (world e) in
  Some (n, data, set_fsfile f s, mkEnv w (calls e ++ [Fs_read count])).
Proof.
  intros Hm. apply mode_file in Hm as [Hraw Hrom].
  unfold read. rewrite Hraw. simpl. rewrite Hraw, Hrom. simpl.
  unfold_monad. destruct (FsFile_read _ _ _) as [[[n data] f] w]. reflexivity.
Qed.

Lemma write_file (s : store F) (buf : list byte) (count : Z) (e : env W) :
  mode_of s = File ->
  write s buf count e =
  if m_isreadonly_attr s then Some (0, s, e)
  else
    let '(n, f, w) := FsFile_write (m_fsfile s) buf count (world e) in
    Some (n, set_fsfile f s, mkEnv w (calls e ++ [Fs_write count])).
Proof.
  intros Hm. apply mode_file in Hm as [Hraw Hrom].
  unfold write. rewrite Hraw. simpl. rewrite Hraw, Hrom. simpl.
  destruct (m_isreadonly_attr s); [reflexivity|].
  unfold_monad. destruct (FsFile_write _ _ _) as [[n f] w]. reflexivity.
Qed.

(** An unaligned call on a store with [m_israw] set is the same call on
    the store with the flag cleared. *)
Lemma exec_unaligned (o : op) (s : store F) (e : env W) :
  m_israw s = true -> unaligned o ->
  exec o s e = exec o (set_israw false s) e.
Proof.
  intros Hraw Hu. destruct o; simpl in Hu; try contradiction;
    unfold exec, seek, read, write; rewrite Hraw; simpl;
    rewrite (misaligned_test _ Hu); reflexivity.
Qed.

(** C1.  On a store in Raw mode, a [seek], [read] or [write] whose byte
    position or count is not a multiple of [SD_SECTOR_SIZE] first clears
    [m_israw], which puts the store in File mode, and is then served as the
    same call on the File-mode store; the call returns, and after it no
    sequence of method calls leads to a store that is not in File mode.  No
    method call takes a store into or out of Rom mode. *)
Theorem C1_unaligned_access_demotes_for_good (s : store F) (e : env W) :
  reachable s e ->
  (mode_of s = Raw ->
   forall o, unaligned o ->
     mode_of (set_israw false s) = File /\
     exec o s e = exec o (set_israw false s) e /\
     exists r s1 e1,
       exec o s e = Some (r, s1, e1) /\
       mode_of s1 = File /\
       forall s2 e2, steps (s1, e1) (s2, e2) -> mode_of s2 = File) /\
  (forall o r s1 e1,
     exec o s e = Some (r, s1, e1) ->
     (mode_of s1 = Rom <-> mode_of s = Rom)).
Proof.
  intros Hreach. split.
  - intros Hm o Hu. apply mode_raw in Hm.
    pose proof (reachable_flags s e Hreach Hm) as Hrom.
    assert (Hfile : mode_of (set_israw false s) = File).
    { apply mode_file. split; [reflexivity | exact Hrom]. }
    split; [exact Hfile|]. split; [apply exec_unaligned; assumption|].
    destruct (exec_file_returns o (set_israw false s) e Hfile)
      as (r & s1 & e1 & Hexec).
    exists r, s1, e1. rewrite (exec_unaligned o s e Hm Hu).
    split; [exact Hexec|].
    assert (Hs1 : mode_of s1 = File) by (eapply exec_file; eassumption).
    split; [exact Hs1|].
    intros s2 e2 Hsteps. exact (steps_file _ _ Hsteps Hs1).
  - intros o r s1 e1 Hexec. rewrite !mode_rom.
    rewrite (exec_isrom _ _ _ _ _ _ Hexec).
    destruct (m_israw s) eqn:Hraw.
    + rewrite (reachable_flags s e Hreach Hraw). intuition congruence.
    + rewrite (exec_israw _ _ _ _ _ _ Hexec Hraw). tauto.
Qed.

End Demotion.

(** A run of C1 on the test double: the store of [RAW:0:99] is in Raw
    mode, and seeking it to byte 100 leaves it in File mode. *)
Lemma C1_unaligned_access_witness :
  exists r s1 e1,
    exec (OpSeek 100) Mock.raw_0_99 Mock.raw_0_99_env = Some (r, s1, e1) /\
    mode_of s1 = File.
Proof.
  assert (Hreach : reachable Mock.raw_0_99 Mock.raw_0_99_env).
  { apply (reach_open "RAW:0:99" 512 Mock.card_only). reflexivity. }
  destruct (C1_unaligned_access_demotes_for_good _ _ Hreach) as [H _].
  destruct (H eq_refl (OpSeek 100)) as (_ & _ & r & s1 & e1 & Hexec & Hm & _).
  - simpl. unfold SD_SECTOR_SIZE. discriminate.
  - exists r, s1, e1. split; assumption.
Defined.

(** ** Refused writes, flush and close *)

(** A byte count of [size_t] range that is a multiple of the sector size
    passes the test of the methods. *)
Lemma aligned_test (x : Z) :
  0 <= x < 2 ^ 32 -> x mod SD_SECTOR_SIZE = 0 ->
  (u64 (u32 (x / SD_SECTOR_SIZE) * SD_SECTOR_SIZE) =? x) = true.
Proof.
  unfold SD_SECTOR_SIZE. intros Hr Hx. apply Z.eqb_eq.
  assert (Hdiv : x = 512 * (x / 512)).
  { rewrite (Z.div_mod x 512) at 1 by lia. lia. }
  rewrite u32_small by lia. rewrite u64_small; lia.
Qed.

Section Refusal.

Context {F W : Type} {collab : Collaborators F W}.

(** C6.  [write] returns 0 when it refuses to write: in Rom mode and in
    File mode with the read-only attribute it returns 0 and leaves the
    store, the world and the call log as they were, so nothing was called;
    in Raw mode, when the card's [writeSectors] fails, it returns 0 with
    the store unchanged.  [read] answers the failure of the card or of the
    ROM drive with -1. *)
Theorem C6_refused_write_returns_zero
  (s : store F) (buf : list byte) (count : Z) (e : env W) :
  (mode_of s = Rom -> write s buf count e = Some (0, s, e)) /\
  (mode_of s = File -> m_isreadonly_attr s = true ->
   write s buf count e = Some (0, s, e)) /\
  (mode_of s = Raw -> bound (m_blockdev s) = true ->
   0 <= count < 2 ^ 32 -> count mod SD_SECTOR_SIZE = 0 ->
   (fst (writeSectors (m_cursector s) buf (u32 (count / SD_SECTOR_SIZE))
           (world e)) = false ->
    exists e1, write s buf count e = Some (0, s, e1)) /\
   (fst (fst (readSectors (m_cursector s) (u32 (count / SD_SECTOR_SIZE))
                (world e))) = false ->
    exists data e1, read s count e = Some (-1, data, s, e1))) /\
  (mode_of s = Rom ->
   0 <= count < 2 ^ 32 -> count mod SD_SECTOR_SIZE = 0 ->
   fst (romDriveRead (u32 (m_cursector s * SD_SECTOR_SIZE)) count (world e))
   = false ->
   exists data e1, read s count e = Some (-1, data, s, e1)).
Proof.
  split; [|split; [|split]].
  - intros Hm. apply mode_rom in Hm as [Hraw Hrom].
    unfold write. rewrite Hraw. simpl. rewrite Hraw, Hrom. reflexivity.
  - intros Hm Hro. rewrite (write_file s buf count e Hm), Hro. reflexivity.
  - intros Hm Hb Hr Ha. apply mode_raw in Hm. split; intros Hfail.
    + unfold write.
      rewrite Hm, (aligned_test count Hr Ha). simpl. rewrite Hm, Hb. simpl.
      unfold_monad. simpl.
      destruct (writeSectors _ _ _ _) as [ok w]. simpl in Hfail. subst ok.
      eexists. reflexivity.
    + unfold read.
      rewrite Hm, (aligned_test count Hr Ha). simpl. rewrite Hm, Hb. simpl.
      unfold_monad. simpl.
      destruct (readSectors _ _ _) as [[ok data] w]. simpl in Hfail. subst ok.
      do 2 eexists. reflexivity.
  - intros Hm Hr Ha Hfail. apply mode_rom in Hm as [Hraw Hrom]. unfold read.
    rewrite Hraw. simpl. rewrite Hraw, Hrom. simpl.
    unfold_monad. rewrite (aligned_test count Hr Ha). simpl.
    destruct (romDriveRead _ _ _) as [ok data]. simpl in Hfail. subst ok.
    do 2 eexists. reflexivity.
Qed.

(** C8, as the code has it.  [flush] returns the store and the environment
    it was given, calling nothing, in Raw mode, in Rom mode and whenever
    the read-only attribute is set; in File mode without the read-only
    attribute it calls the file's [flush]. *)
Theorem C8_flush_delegates_only_when_writable (s : store F) (e : env W) :
  (mode_of s = Raw \/ mode_of s = Rom \/ m_isreadonly_attr s = true ->
   flush s e = Some (s, e)) /\
  (mode_of s = File -> m_isreadonly_attr s = false ->
   flush s e =
   let '(f, w) := FsFile_flush (m_fsfile s) (world e) in
   Some (set_fsfile f s, mkEnv w (calls e ++ [Fs_flush]))).
Proof.
  split.
  - intros H. unfold flush.
    destruct (m_israw s) eqn:Hraw; [reflexivity|].
    destruct (m_isrom s) eqn:Hrom; [reflexivity|].
    destruct (m_isreadonly_attr s) eqn:Hro; [reflexivity|].
    destruct H as [H | [H | H]].
    + apply mode_raw in H. congruence.
    + apply mode_rom in H. destruct H. congruence.
    + discriminate.
  - intros Hm Hro. apply mode_file in Hm as [Hraw Hrom].
    unfold flush. rewrite Hraw, Hrom, Hro. simpl. unfold_monad.
    destruct (FsFile_flush _ _) as [f w]. reflexivity.
Qed.

(** C9.  In every mode [close] returns, and [isOpen] on the store it
    leaves returns false.  In Raw and Rom mode [close] reports success,
    calls nothing, and a second [close] reports success again and changes
    nothing; in Raw mode the first [close] does no more than set
    [m_blockdev] to null. *)
Theorem C9_close_then_not_open (s : store F) (e : env W) :
  (exists r s1 e1 e2,
     close s e = Some (r, s1, e1) /\ isOpen s1 e1 = Some (false, e2)) /\
  (mode_of s = Raw \/ mode_of s = Rom ->
   exists s1,
     close s e = Some (true, s1, e) /\ close s1 e = Some (true, s1, e)) /\
  (mode_of s = Raw -> close s e = Some (true, set_blockdev None s, e)).
Proof.
  split; [|split].
  - unfold close, isOpen.
    destruct (m_israw s) eqn:Hraw; [|destruct (m_isrom s) eqn:Hrom].
    + exists true, (set_blockdev None s), e, e. unfold_monad. simpl.
      rewrite Hraw. split; reflexivity.
    + exists true, (set_imagesize 0 s), e, e. unfold_monad. simpl.
      rewrite Hraw, Hrom. split; reflexivity.
    + unfold_monad. pose proof (FsFile_close_closed (m_fsfile s) (world e)) as Hc.
      destruct (FsFile_close _ _) as [[r f] w]. simpl in Hc.
      exists r, (set_fsfile f s). do 2 eexists. simpl.
      rewrite Hraw, Hrom, Hc. split; reflexivity.
  - intros [Hm | Hm].
    + apply mode_raw in Hm. exists (set_blockdev None s).
      unfold close. simpl. rewrite Hm. split; reflexivity.
    + apply mode_rom in Hm as [Hraw Hrom]. exists (set_imagesize 0 s).
      unfold close. simpl. rewrite Hraw, Hrom. split; reflexivity.
  - intros Hm. apply mode_raw in Hm. unfold close. rewrite Hm. reflexivity.
Qed.

End Refusal.

(** ** Construction *)

Section Construction.

Context {F W : Type} {collab : Collaborators F W}.

(** The [RAW:] branch, in terms of what [strtoul] reads. *)
Lemma open_raw (filename endptr endptr2 : string) (bs b e : Z) (e0 : env W) :
  strncasecmp filename "RAW:" 4 = 0 ->
  strtoul (advance 4 filename) 0 = (b, endptr) ->
  strtoul (next endptr) 0 = (e, endptr2) ->
  ImageBackingStore_open filename bs e0 =
  if negb (Ascii.eqb (deref endptr) ":") || negb (Ascii.eqb (deref endptr2) zero)
  then Some (unopened_raw b e, e0)
  else if negb (bs mod SD_SECTOR_SIZE =? 0)
  then Some (unopened_raw b e, e0)
  else
    let n := u32 (sectorCount (world e0)) in
    Some (mkStore true false false 0 FsFile_new (Some SdCard) (u32 b)
            (if u32 e >=? n then u32 (n - 1) else u32 e) 0,
          mkEnv (world e0) (calls e0 ++ [Card_sectorCount])).
Proof.
  intros Hpre H1 H2. unfold ImageBackingStore_open.
  rewrite Hpre, H1, H2. simpl.
  destruct (negb (Ascii.eqb (deref endptr) ":") || negb (Ascii.eqb (deref endptr2) zero));
    [reflexivity|].
  destruct (negb (bs mod SD_SECTOR_SIZE =? 0)); [reflexivity|].
  unfold_monad. simpl.
  destruct (u32 e >=? u32 (sectorCount (world e0))); reflexivity.
Qed.

(** The same for a name that is accepted. *)
Lemma open_raw_descriptor (filename : string) (bs b e : Z) (e0 : env W) :
  raw_descriptor filename b e -> bs mod SD_SECTOR_SIZE = 0 ->
  ImageBackingStore_open filename bs e0 =
  let n := u32 (sectorCount (world e0)) in
  Some (mkStore true false false 0 FsFile_new (Some SdCard) (u32 b)
          (if u32 e >=? n then u32 (n - 1) else u32 e) 0,
        mkEnv (world e0) (calls e0 ++ [Card_sectorCount])).
Proof.
  intros (Hpre & endptr & endptr2 & H1 & Hc & H2 & Hz) Hbs.
  rewrite (open_raw filename endptr endptr2 bs b e e0 Hpre H1 H2).
  rewrite Hc, Hz, Hbs. reflexivity.
Qed.

(** The [ROM:] branch. *)
Lemma open_rom (filename : string) (bs : Z) (e0 : env W) :
  strncasecmp filename "RAW:" 4 <> 0 ->
  strncasecmp filename "ROM:" 4 = 0 ->
  ImageBackingStore_open filename bs e0 =
  let '(present, imagesize) := romDriveCheckPresent (world e0) in
  Some (if present
        then mkStore false true false (u32 imagesize) FsFile_new None 0 0 0
        else ImageBackingStore_new,
        mkEnv (world e0) (calls e0 ++ [Rom_checkPresent])).
Proof.
  intros Hraw Hrom. unfold ImageBackingStore_open.
  apply Z.eqb_neq in Hraw. rewrite Hraw, Hrom. simpl.
  unfold_monad. simpl.
  destruct (romDriveCheckPresent (world e0)) as [[|] imagesize]; reflexivity.
Qed.

(** The last branch, in terms of what it learns about the file. *)
Lemma open_file (filename : string) (bs : Z) (e0 : env W) :
  strncasecmp filename "RAW:" 4 <> 0 ->
  strncasecmp filename "ROM:" 4 <> 0 ->
  let p := file_probe filename (world e0) in
  let log := (calls e0 ++
              [Sd_attrib filename;
               Sd_open filename (if p_readonly p then O_RDONLY else O_RDWR);
               Fs_size; Fs_contiguousRange])%list in
  ImageBackingStore_open filename bs e0 =
  if p_contiguous p && (p_end p >=? u32 (p_begin p + p_sectorcount p))
     && (bs mod SD_SECTOR_SIZE =? 0)
  then
    let slack := negb (p_end p =? u32 (p_begin p + p_sectorcount p)) in
    let usealloc :=
      slack && ini_getbool "SCSI" "UseFATAllocSize" false CONFIGFILE (p_world p) in
    let sectorcount :=
      if usealloc then u32 (p_end p - p_begin p + 1) else p_sectorcount p in
    let '(f, w) := FsFile_flush (p_file p) (p_world p) in
    Some (mkStore true false (p_readonly p) 0 f (Some SdCard) (p_begin p)
            (u32 (p_begin p + sectorcount - 1)) 0,
          mkEnv w (log ++
                   (if slack then [Ini_getbool "SCSI" "UseFATAllocSize"] else [])
                   ++ [Fs_flush])%list)
  else
    Some (mkStore false false (p_readonly p) 0 (p_file p) None 0 0 0,
          mkEnv (p_world p) log).
Proof.
  intros Hraw Hrom. unfold ImageBackingStore_open, file_probe.
  apply Z.eqb_neq in Hraw, Hrom. rewrite Hraw, Hrom.
  unfold_monad. simpl.
  repeat break_goal; simpl; rewrite <- ?app_assoc; try reflexivity;
    try discriminate.
Qed.

(** The constructor has no assertion: it always returns. *)
Lemma open_returns (filename : string) (bs : Z) (e0 : env W) :
  exists s e, ImageBackingStore_open filename bs e0 = Some (s, e).
Proof.
  unfold ImageBackingStore_open. unfold_monad.
  repeat break_goal; eauto.
Qed.

End Construction.

(** ** Names of raw sector ranges *)

Section RawNames.

Context {F W : Type} {collab : Collaborators F W}.


(** C5, as the code has it.  When [e] is not less than the card's sector
    count [n], and the card has a sector, the constructor sets
    [m_endsector] to [n - 1], whatever [b] is; [size] is then
    [(n - 1 - b + 1) * SD_SECTOR_SIZE] when [b <= n]. *)
Theorem C5_end_sector_clamped
  (filename : string) (bs b e : Z) (e0 : env W) :
  raw_descriptor filename b e ->
  0 <= e < 2 ^ 32 ->
  1 <= u32 (sectorCount (world e0)) ->
  e >= u32 (sectorCount (world e0)) ->
  bs mod SD_SECTOR_SIZE = 0 ->
  exists s e1,
    ImageBackingStore_open filename bs e0 = Some (s, e1) /\
    m_endsector s = u32 (sectorCount (world e0)) - 1 /\
    (0 <= b -> b <= u32 (sectorCount (world e0)) ->
     size s e1 =
     Some ((u32 (sectorCount (world e0)) - 1 - b + 1) * SD_SECTOR_SIZE, e1)).
Proof.
  intros Hd He Hn1 Hge Hbs.
  pose proof (u32_range (sectorCount (world e0))) as Hn.
  rewrite (open_raw_descriptor filename bs b e e0 Hd Hbs). simpl.
  rewrite (u32_small e) by lia.
  replace (e >=? u32 (sectorCount (world e0))) with true
    by (symmetry; rewrite Z.geb_leb; apply Z.leb_le; lia).
  rewrite (u32_small (u32 (sectorCount (world e0)) - 1)) by lia.
  do 2 eexists. split; [reflexivity|]. split; [reflexivity|].
  intros Hb Hbn. rewrite (u32_small b) by lia.
  unfold size. simpl. unfold ret.
  rewrite (u32_small (_ - 1 - b + 1)) by lia.
  rewrite u64_small; [reflexivity|]. unfold SD_SECTOR_SIZE. lia.
Qed.

(** C7, as the code has it.  When the first number of a [RAW:] name is not
    followed by a colon, or the second number is not followed by the end of
    the name, the constructor sets neither flag, calls nothing, and
    [isOpen] returns false. *)
Theorem C7_malformed_raw_name_is_not_opened
  (filename endptr endptr2 : string) (bs b e : Z) (e0 : env W) :
  strncasecmp filename "RAW:" 4 = 0 ->
  strtoul (advance 4 filename) 0 = (b, endptr) ->
  strtoul (next endptr) 0 = (e, endptr2) ->
  deref endptr <> ":"%char \/ deref endptr2 <> zero ->
  exists s,
    ImageBackingStore_open filename bs e0 = Some (s, e0) /\
    m_israw s = false /\ m_isrom s = false /\
    exists e1, isOpen s e0 = Some (false, e1).
Proof.
  intros Hpre H1 H2 Hbad.
  rewrite (open_raw filename endptr endptr2 bs b e e0 Hpre H1 H2).
  replace (negb (Ascii.eqb (deref endptr) ":") || negb (Ascii.eqb (deref endptr2) zero))
    with true.
  - exists (unopened_raw b e). repeat split.
    unfold isOpen. simpl. unfold_monad. simpl.
    rewrite FsFile_new_closed. eexists. reflexivity.
  - symmetry. apply orb_true_iff.
    destruct Hbad as [Hbad | Hbad]; [left | right];
      apply negb_true_iff, Ascii.eqb_neq; exact Hbad.
Qed.

(** C10.  The store of the default constructor, and for a [RAW:] or
    [ROM:] name every store on which the constructor has set neither flag,
    is writable according to [isWritable] and not open according to
    [isOpen]. *)
Theorem C10_unopened_store_is_writable :
  (isWritable (F := F) ImageBackingStore_new = true /\
   forall e : env W, exists e1,
     isOpen ImageBackingStore_new e = Some (false, e1)) /\
  (forall filename bs (e0 : env W) s e,
     strncasecmp filename "RAW:" 4 = 0 \/ strncasecmp filename "ROM:" 4 = 0 ->
     ImageBackingStore_open filename bs e0 = Some (s, e) ->
     m_israw s = false -> m_isrom s = false ->
     isWritable s = true /\ exists e1, isOpen s e = Some (false, e1)).
Proof.
  split.
  - split; [reflexivity|]. intros e. unfold isOpen. simpl. unfold_monad. simpl.
    rewrite FsFile_new_closed. eexists. reflexivity.
  - intros filename bs e0 s e Hpre Hopen Hraw Hrom.
    assert (Hattr : m_isreadonly_attr s = false /\ m_fsfile s = FsFile_new).
    { destruct (Z.eq_dec (strncasecmp filename "RAW:" 4) 0) as [Hr | Hr].
      - destruct (strtoul (advance 4 filename) 0) as [b endptr] eqn:H1.
        destruct (strtoul (next endptr) 0) as [e' endptr2] eqn:H2.
        rewrite (open_raw filename endptr endptr2 bs b e' e0 Hr H1 H2) in Hopen.
        clear Hpre Hr H1 H2.
        simpl in Hopen; repeat (break_step; simpl in * );
          try discriminate; split; reflexivity.
      - destruct Hpre as [Hp | Hp]; [contradiction|].
        rewrite (open_rom filename bs e0 Hr Hp) in Hopen.
        clear Hr Hp.
        simpl in Hopen; repeat (break_step; simpl in * );
          try discriminate; split; reflexivity. }
    destruct Hattr as [Hro Hf]. split.
    + unfold isWritable. rewrite Hrom, Hro. reflexivity.
    + unfold isOpen. rewrite Hraw, Hrom, Hf. unfold_monad. simpl.
      rewrite FsFile_new_closed. eexists. reflexivity.
Qed.

End RawNames.

(** ** The sector range of a Raw store *)

Section Bounds.

Context {F W : Type} {collab : Collaborators F W}.

(** No method writes [m_bgnsector] or [m_endsector]. *)
Lemma exec_bounds (o : op) (s s1 : store F) (e e1 : env W) (r : result) :
  exec o s e = Some (r, s1, e1) ->
  m_bgnsector s1 = m_bgnsector s /\ m_endsector s1 = m_endsector s.
Proof.
  intros H. destruct o; unfold exec, isOpen, close, size, contiguousRange,
    seek, read, write, flush, position in H;
    break_all H; split; reflexivity.
Qed.

Lemma steps_bounds (x y : store F * env W) :
  steps x y ->
  m_bgnsector (fst y) = m_bgnsector (fst x) /\
  m_endsector (fst y) = m_endsector (fst x).
Proof.
  induction 1 as [x | o s e r s1 e1 y Hexec Hsteps IH].
  - split; reflexivity.
  - destruct (exec_bounds _ _ _ _ _ _ Hexec) as [Hb He].
    destruct IH as [IHb IHe]. simpl in *. split; congruence.
Qed.

(** The end sector the last branch of the constructor computes is not
    below the begin sector when the file has a sector and the sum
    [begin + sectorcount] does not wrap. *)
Lemma promoted_end (begin end_ sectorcount : Z) (usealloc : bool) :
  0 <= begin < 2 ^ 32 -> 0 <= end_ < 2 ^ 32 ->
  1 <= sectorcount -> begin + sectorcount < 2 ^ 32 ->
  (end_ >=? u32 (begin + sectorcount)) = true ->
  begin <= u32 (begin + (if usealloc then u32 (end_ - begin + 1)
                         else sectorcount) - 1).
Proof.
  intros Hb He Hs Hsum Hge.
  rewrite u32_small in Hge by lia. rewrite Z.geb_leb in Hge.
  apply Z.leb_le in Hge. destruct usealloc.
  - destruct (Z.eq_dec (end_ - begin + 1) (2 ^ 32)) as [Hfull | Hfull].
    + rewrite Hfull. assert (begin = 0) by lia. subst begin. vm_compute.
      discriminate.
    + rewrite (u32_small (end_ - begin + 1)) by lia.
      rewrite u32_small by lia. lia.
  - rewrite u32_small by lia. lia.
Qed.

(** C4, as the code has it.  A store in Raw mode has
    [m_bgnsector <= m_endsector], after construction and after any later
    method calls, when it was built from an accepted name [RAW:b:e] with
    [b <= e] and [b] less than the card's sector count, whether or not [e]
    exceeds that count, or from a file of at least one sector whose
    [begin + sectorcount] fits in 32 bits. *)
Theorem C4_raw_bounds_ordered
  (filename : string) (bs : Z) (e0 e1 : env W) (s : store F) :
  ImageBackingStore_open filename bs e0 = Some (s, e1) ->
  mode_of s = Raw ->
  (exists b e,
     raw_descriptor filename b e /\ 0 <= b <= e /\ e < 2 ^ 32 /\
     b < u32 (sectorCount (world e0))) \/
  (strncasecmp filename "RAW:" 4 <> 0 /\
   1 <= p_sectorcount (file_probe filename (world e0)) /\
   p_begin (file_probe filename (world e0)) +
   p_sectorcount (file_probe filename (world e0)) < 2 ^ 32) ->
  m_bgnsector s <= m_endsector s /\
  forall s2 e2, steps (s, e1) (s2, e2) -> m_bgnsector s2 <= m_endsector s2.
Proof.
  intros Hopen Hm Hfrom. apply mode_raw in Hm.
  assert (Hs : m_bgnsector s <= m_endsector s).
  { destruct Hfrom as [(b & e & Hd & Hbe & He & Hbn) | (Hnraw & Hsc & Hsum)].
    - pose proof (u32_range (sectorCount (world e0))) as Hn.
      destruct Hd as (Hpre & endptr & endptr2 & H1 & Hc & H2 & Hz).
      rewrite (open_raw filename endptr endptr2 bs b e e0 Hpre H1 H2) in Hopen.
      rewrite Hc, Hz in Hopen. simpl in Hopen.
      destruct (negb (bs mod SD_SECTOR_SIZE =? 0)).
      + inversion Hopen; subst. discriminate.
      + inversion Hopen; subst. simpl.
        rewrite (u32_small b), (u32_small e) by lia.
        destruct (e >=? u32 (sectorCount (world e0))).
        * rewrite u32_small; lia.
        * lia.
    - destruct (Z.eq_dec (strncasecmp filename "ROM:" 4) 0) as [Hrom | Hnrom].
      + rewrite (open_rom filename bs e0 Hnraw Hrom) in Hopen.
        destruct (romDriveCheckPresent (world e0)) as [[|] sz];
          inversion Hopen; subst; discriminate.
      + rewrite (open_file filename bs e0 Hnraw Hnrom) in Hopen.
        set (p := file_probe filename (world e0)) in *.
        assert (Hb : 0 <= p_begin p < 2 ^ 32).
        { unfold p, file_probe. repeat break_goal; simpl; apply u32_range. }
        assert (He : 0 <= p_end p < 2 ^ 32).
        { unfold p, file_probe. repeat break_goal; simpl; apply u32_range. }
        destruct (p_contiguous p); simpl in Hopen;
          [|inversion Hopen; subst; discriminate].
        destruct (p_end p >=? u32 (p_begin p + p_sectorcount p)) eqn:Hge;
          simpl in Hopen; [|inversion Hopen; subst; discriminate].
        destruct (bs mod SD_SECTOR_SIZE =? 0);
          [|inversion Hopen; subst; discriminate].
        destruct (FsFile_flush (p_file p) (p_world p)) as [f w].
        inversion Hopen; subst. simpl.
        apply promoted_end; assumption. }
  split; [exact Hs|].
  intros s2 e2 Hsteps. destruct (steps_bounds _ _ Hsteps) as [Hb He].
  simpl in Hb, He. rewrite Hb, He. exact Hs.
Qed.

(** The criterion of the last branch of the constructor: the store is in
    Raw mode exactly when the range query succeeds, [end] is at least
    [begin + sectorcount] as a 32-bit sum, and the block size is a multiple
    of the sector size.  In Raw mode [m_bgnsector] is the [begin] the file
    reported, and the file object is the one [SD.open] returned, flushed. *)
Lemma promotion_criterion (filename : string) (bs : Z) (e0 : env W) :
  strncasecmp filename "RAW:" 4 <> 0 ->
  strncasecmp filename "ROM:" 4 <> 0 ->
  exists s e1,
    ImageBackingStore_open filename bs e0 = Some (s, e1) /\
    let p := file_probe filename (world e0) in
    (m_israw s = true <->
     p_contiguous p = true /\
     u32 (p_begin p + p_sectorcount p) <= p_end p /\
     bs mod SD_SECTOR_SIZE = 0) /\
    (m_israw s = true ->
     m_bgnsector s = p_begin p /\
     m_blockdev s = Some SdCard /\
     m_fsfile s = fst (FsFile_flush (p_file p) (p_world p))).
Proof.
  intros Hnraw Hnrom. rewrite (open_file filename bs e0 Hnraw Hnrom).
  cbv zeta. remember (file_probe filename (world e0)) as p eqn:Hp. clear Hp.
  destruct (p_contiguous p); simpl.
  - destruct (p_end p >=? u32 (p_begin p + p_sectorcount p)) eqn:Hge; simpl.
    + destruct (bs mod SD_SECTOR_SIZE =? 0) eqn:Hbs.
      * destruct (FsFile_flush (p_file p) (p_world p)) as [f w].
        do 2 eexists. split; [reflexivity|]. simpl.
        rewrite Z.geb_leb in Hge. apply Z.leb_le in Hge.
        apply Z.eqb_eq in Hbs. intuition.
      * do 2 eexists. split; [reflexivity|]. simpl.
        apply Z.eqb_neq in Hbs. intuition congruence.
    + do 2 eexists. split; [reflexivity|]. simpl.
      rewrite Z.geb_leb in Hge. apply Z.leb_gt in Hge.
      split; [|discriminate]. split; [discriminate|]. intros (_ & H & _). lia.
  - do 2 eexists. split; [reflexivity|]. simpl. intuition congruence.
Qed.

(** A file that fills its contiguous run exactly, [end - begin + 1] being
    its sector count, is never promoted. *)
Lemma exact_fit_stays_file (filename : string) (bs : Z) (e0 : env W) :
  strncasecmp filename "RAW:" 4 <> 0 ->
  strncasecmp filename "ROM:" 4 <> 0 ->
  let p := file_probe filename (world e0) in
  p_end p - p_begin p + 1 = p_sectorcount p ->
  p_begin p + p_sectorcount p < 2 ^ 32 ->
  exists s e1,
    ImageBackingStore_open filename bs e0 = Some (s, e1) /\ mode_of s = File.
Proof.
  intros Hnraw Hnrom p Hfit Hsum.
  destruct (promotion_criterion filename bs e0 Hnraw Hnrom)
    as (s & e1 & Hopen & Hiff & _).
  exists s, e1. split; [exact Hopen|]. fold p in Hiff.
  assert (Hb : 0 <= p_begin p).
  { unfold p, file_probe. repeat break_goal; simpl; apply u32_range. }
  assert (Hs : 0 <= p_sectorcount p).
  { unfold p, file_probe. repeat break_goal; simpl; apply u32_range. }
  apply mode_file. split.
  - destruct (m_israw s); [|reflexivity].
    destruct Hiff as [Hiff _]. destruct (Hiff eq_refl) as (_ & Hle & _).
    rewrite u32_small in Hle by lia. lia.
  - destruct (m_isrom s) eqn:Hrom; [|reflexivity].
    rewrite (open_file filename bs e0 Hnraw Hnrom) in Hopen.
    simpl in Hopen; repeat (break_step; simpl in * ); congruence.
Qed.

End Bounds.

(** ** Runs on the test double *)

(** C2, at a file that fills its contiguous run exactly: 1024 bytes in the
    sectors 100 to 101, with a block size of 512.  The range query
    succeeds, the run of [end - begin + 1] sectors is as long as the file's
    sector count, the block size is a multiple of the sector size, and yet
    the constructor leaves the store in File mode, because it asks for
    [end >= begin + sectorcount]. *)
Theorem C2_exact_fit_file_is_not_promoted :
  let e0 := Mock.with_file 0 1024 (Some (100, 101)) in
  let p := file_probe "image.img" (world e0) in
  p_contiguous p = true /\
  p_end p - p_begin p + 1 >= p_sectorcount p /\
  512 mod SD_SECTOR_SIZE = 0 /\
  exists s e1,
    ImageBackingStore_open "image.img" 512 e0 = Some (s, e1) /\
    mode_of s = File /\ m_blockdev s = None.
Proof.
  repeat split; try (vm_compute; congruence).
  do 2 eexists. split; [vm_compute; reflexivity|]. split; reflexivity.
Qed.

(** With one more sector in the run the same file is promoted. *)
Lemma C2_file_with_slack_is_promoted :
  exists s e1,
    ImageBackingStore_open "image.img" 512
      (Mock.with_file 0 1024 (Some (100, 102))) = Some (s, e1) /\
    mode_of s = Raw /\ m_bgnsector s = 100 /\ m_endsector s = 101.
Proof.
  do 2 eexists. split; [vm_compute; reflexivity|]. repeat split.
Qed.

Lemma mock_raw_descriptor_0_99 : raw_descriptor "RAW:0:99" 0 99.
Proof. split; [reflexivity|]. exists ":99", "". repeat split. Defined.

Lemma mock_raw_descriptor_0_3000 : raw_descriptor "RAW:0:3000" 0 3000.
Proof. split; [reflexivity|]. exists ":3000", "". repeat split. Defined.



Lemma C4_raw_bounds_witness :
  exists s e1,
    ImageBackingStore_open "RAW:0:3000" 512 Mock.card_only = Some (s, e1) /\
    m_bgnsector s <= m_endsector s /\
    forall s2 e2, steps (s, e1) (s2, e2) -> m_bgnsector s2 <= m_endsector s2.
Proof.
  exists (mkStore true false false 0 Mock.closed (Some SdCard) 0 999 0).
  exists (mkEnv (world Mock.card_only) [Card_sectorCount]).
  split; [reflexivity|].
  apply (C4_raw_bounds_ordered "RAW:0:3000" 512 Mock.card_only).
  - reflexivity.
  - reflexivity.
  - left. exists 0, 3000. split; [exact mock_raw_descriptor_0_3000|].
    split; [lia|]. split; [lia|]. vm_compute. reflexivity.
Defined.

(** C4 as stated fails when the begin sector exceeds the card's sector
    count: [RAW:2000:3000] on a card of 1000 sectors gives an open store in
    Raw mode with begin sector 2000 and end sector 999. *)
Lemma C4_bounds_counterexample :
  exists s e1,
    ImageBackingStore_open "RAW:2000:3000" 512 Mock.card_only = Some (s, e1) /\
    mode_of s = Raw /\
    isOpen s e1 = Some (true, e1) /\
    m_bgnsector s = 2000 /\ m_endsector s = 999 /\
    ~ m_bgnsector s <= m_endsector s.
Proof.
  do 2 eexists. split; [vm_compute; reflexivity|].
  repeat split. simpl. lia.
Qed.

Lemma mock_raw_descriptor_2000_3000 :
  raw_descriptor (collab := Mock.collab) "RAW:2000:3000" 2000 3000.
Proof. split; [reflexivity|]. exists ":3000", "". repeat split. Defined.

Lemma C5_end_sector_witness :
  (exists s e1,
     ImageBackingStore_open "RAW:0:3000" 512 Mock.card_only = Some (s, e1) /\
     m_endsector s = u32 (sectorCount (world Mock.card_only)) - 1 /\
     size s e1 =
     Some ((u32 (sectorCount (world Mock.card_only)) - 1 - 0 + 1)
           * SD_SECTOR_SIZE, e1)) /\
  (exists s e1,
     ImageBackingStore_open "RAW:2000:3000" 512 Mock.card_only = Some (s, e1) /\
     m_endsector s = u32 (sectorCount (world Mock.card_only)) - 1).
Proof.
  assert (He : 0 <= 3000 < 2 ^ 32) by lia.
  assert (Hn : 1 <= u32 (sectorCount (world Mock.card_only)))
    by (vm_compute; discriminate).
  assert (Hge : 3000 >= u32 (sectorCount (world Mock.card_only)))
    by (vm_compute; discriminate).
  split.
  - destruct (C5_end_sector_clamped (collab := Mock.collab)
                "RAW:0:3000" 512 0 3000 Mock.card_only
                mock_raw_descriptor_0_3000 He Hn Hge eq_refl)
      as (s & e1 & Hopen & Hend & Hsize).
    exists s, e1. split; [exact Hopen|]. split; [exact Hend|].
    apply Hsize; [lia | vm_compute; discriminate].
  - destruct (C5_end_sector_clamped (collab := Mock.collab)
                "RAW:2000:3000" 512 2000 3000
                Mock.card_only mock_raw_descriptor_2000_3000 He Hn Hge eq_refl)
      as (s & e1 & Hopen & Hend & _).
    exists s, e1. split; [exact Hopen | exact Hend].
Defined.

(** C5 as stated fails when [b] exceeds the card's sector count:
    for [RAW:2000:3000] on a card of 1000 sectors the end sector is 999 and
    [size] is [(2^32 - 1000) * 512], not [(1000 - 1 - 2000 + 1) * 512]. *)
Lemma C5_size_counterexample :
  raw_descriptor "RAW:2000:3000" 2000 3000 /\
  3000 >= u32 (sectorCount (world Mock.card_only)) /\
  exists s e1,
    ImageBackingStore_open "RAW:2000:3000" 512 Mock.card_only = Some (s, e1) /\
    m_endsector s = 999 /\
    size s e1 = Some (2199022743552, e1) /\
    2199022743552 <>
    (u32 (sectorCount (world Mock.card_only)) - 1 - 2000 + 1) * SD_SECTOR_SIZE.
Proof.
  split. { split; [reflexivity|]. exists ":3000", "". repeat split. }
  split. { vm_compute. discriminate. }
  do 2 eexists. split; [vm_compute; reflexivity|].
  split; [reflexivity|].
  split; [vm_compute; reflexivity|]. vm_compute. discriminate.
Qed.

(** The named stores of the test double are what the constructor builds. *)
Lemma mock_stores_constructed :
  ImageBackingStore_open "RAW:0:99" 512 Mock.card_only
  = Some (Mock.raw_0_99, Mock.raw_0_99_env) /\
  ImageBackingStore_open "ROM:" 512 (Mock.with_rom 4096)
  = Some (Mock.rom_4096, Mock.rom_4096_env) /\
  ImageBackingStore_open "image.img" 512 (Mock.with_file 1 1000 None)
  = Some (Mock.readonly_file, Mock.readonly_file_env) /\
  ImageBackingStore_open "image.img" 512 (Mock.with_file 0 1000 None)
  = Some (Mock.writable_file, Mock.writable_file_env).
Proof. repeat split. Qed.

Lemma C6_refused_write_witness :
  write Mock.rom_4096 [] 512 Mock.rom_4096_env
  = Some (0, Mock.rom_4096, Mock.rom_4096_env) /\
  write Mock.readonly_file [] 512 Mock.readonly_file_env
  = Some (0, Mock.readonly_file, Mock.readonly_file_env) /\
  (exists e1, write Mock.raw_0_99 [] 1024000 Mock.raw_0_99_env
              = Some (0, Mock.raw_0_99, e1)) /\
  (exists data e1, read Mock.raw_0_99 1024000 Mock.raw_0_99_env
                   = Some (-1, data, Mock.raw_0_99, e1)) /\
  (exists data e1, read Mock.rom_4096 8192 Mock.rom_4096_env
                   = Some (-1, data, Mock.rom_4096, e1)).
Proof.
  destruct (C6_refused_write_returns_zero
              Mock.rom_4096 [] 512 Mock.rom_4096_env) as (Hrom & _).
  destruct (C6_refused_write_returns_zero
              Mock.readonly_file [] 512 Mock.readonly_file_env)
    as (_ & Hro & _).
  destruct (C6_refused_write_returns_zero
              Mock.raw_0_99 [] 1024000 Mock.raw_0_99_env)
    as (_ & _ & Hraw & _).
  destruct (C6_refused_write_returns_zero
              Mock.rom_4096 [] 8192 Mock.rom_4096_env)
    as (_ & _ & _ & Hread).
  destruct Hraw as [Hw Hr]; try reflexivity; try lia.
  split; [|split; [|split; [|split]]].
  - apply Hrom. reflexivity.
  - apply Hro; reflexivity.
  - apply Hw. reflexivity.
  - apply Hr. reflexivity.
  - apply Hread; try reflexivity. lia.
Defined.

Lemma C7_malformed_raw_name_witness :
  (exists s,
     ImageBackingStore_open "RAW:10" 512 Mock.card_only
     = Some (s, Mock.card_only) /\
     m_israw s = false /\ m_isrom s = false /\
     exists e1, isOpen s Mock.card_only = Some (false, e1)) /\
  (exists s,
     ImageBackingStore_open "RAW:abc:20" 512 Mock.card_only
     = Some (s, Mock.card_only) /\
     m_israw s = false /\ m_isrom s = false /\
     exists e1, isOpen s Mock.card_only = Some (false, e1)) /\
  (exists s,
     ImageBackingStore_open "RAW:10:20xyz" 512 Mock.card_only
     = Some (s, Mock.card_only) /\
     m_israw s = false /\ m_isrom s = false /\
     exists e1, isOpen s Mock.card_only = Some (false, e1)).
Proof.
  split; [|split].
  - apply (C7_malformed_raw_name_is_not_opened "RAW:10" "" "" 512 10 0);
      try reflexivity. left. discriminate.
  - apply (C7_malformed_raw_name_is_not_opened
             "RAW:abc:20" "abc:20" "bc:20" 512 0 0);
      try reflexivity. left. discriminate.
  - apply (C7_malformed_raw_name_is_not_opened
             "RAW:10:20xyz" ":20xyz" "xyz" 512 10 20);
      try reflexivity. right. discriminate.
Defined.

(** C7 as stated fails for a field that is missing but whose separator is
    there: [strtoul] reads an empty field as 0, so [RAW:10:] is accepted
    and gives an open store in Raw mode, and so does [RAW::20]. *)
Lemma C7_empty_field_counterexample :
  (exists s e1,
     ImageBackingStore_open "RAW:10:" 512 Mock.card_only = Some (s, e1) /\
     mode_of s = Raw /\ isOpen s e1 = Some (true, e1) /\
     m_bgnsector s = 10 /\ m_endsector s = 0) /\
  (exists s e1,
     ImageBackingStore_open "RAW::20" 512 Mock.card_only = Some (s, e1) /\
     mode_of s = Raw /\ isOpen s e1 = Some (true, e1) /\
     m_bgnsector s = 0 /\ m_endsector s = 20).
Proof.
  split; do 2 eexists; (split; [vm_compute; reflexivity|]); repeat split.
Qed.

Lemma C8_flush_witness :
  flush Mock.raw_0_99 Mock.raw_0_99_env
  = Some (Mock.raw_0_99, Mock.raw_0_99_env) /\
  flush Mock.readonly_file Mock.readonly_file_env
  = Some (Mock.readonly_file, Mock.readonly_file_env) /\
  flush Mock.writable_file Mock.writable_file_env
  = Some (Mock.writable_file,
          mkEnv (world Mock.writable_file_env)
            (calls Mock.writable_file_env ++ [Fs_flush])).
Proof.
  destruct (C8_flush_delegates_only_when_writable
              Mock.raw_0_99 Mock.raw_0_99_env) as [Hraw _].
  destruct (C8_flush_delegates_only_when_writable
              Mock.readonly_file Mock.readonly_file_env) as [Hro _].
  destruct (C8_flush_delegates_only_when_writable
              Mock.writable_file Mock.writable_file_env) as [_ Hrw].
  split; [|split].
  - apply Hraw. left. reflexivity.
  - apply Hro. right. right. reflexivity.
  - apply Hrw; reflexivity.
Defined.

(** C8 as stated fails in File mode when the read-only attribute is set:
    the store built from a fragmented read-only file is in File mode, its
    file is open, and [flush] returns with the call log as it was, in
    which there is no call of the file's [flush]. *)
Lemma C8_flush_counterexample :
  ImageBackingStore_open "image.img" 512 (Mock.with_file 1 1000 None)
  = Some (Mock.readonly_file, Mock.readonly_file_env) /\
  mode_of Mock.readonly_file = File /\
  isOpen Mock.readonly_file Mock.readonly_file_env
  = Some (true, mkEnv (world Mock.readonly_file_env)
                  (calls Mock.readonly_file_env ++ [Fs_isOpen])) /\
  flush Mock.readonly_file Mock.readonly_file_env
  = Some (Mock.readonly_file, Mock.readonly_file_env) /\
  ~ In Fs_flush (calls Mock.readonly_file_env).
Proof.
  repeat split. simpl. intros H.
  repeat (destruct H as [H | H]; [discriminate H|]). exact H.
Qed.

Lemma C9_close_witness :
  (exists s1,
     close Mock.raw_0_99 Mock.raw_0_99_env = Some (true, s1, Mock.raw_0_99_env) /\
     close s1 Mock.raw_0_99_env = Some (true, s1, Mock.raw_0_99_env)) /\
  (exists s1,
     close Mock.rom_4096 Mock.rom_4096_env = Some (true, s1, Mock.rom_4096_env) /\
     close s1 Mock.rom_4096_env = Some (true, s1, Mock.rom_4096_env)) /\
  close Mock.raw_0_99 Mock.raw_0_99_env
  = Some (true, set_blockdev None Mock.raw_0_99, Mock.raw_0_99_env).
Proof.
  destruct (C9_close_then_not_open Mock.raw_0_99 Mock.raw_0_99_env)
    as (_ & Htwice & Hraw).
  destruct (C9_close_then_not_open Mock.rom_4096 Mock.rom_4096_env)
    as (_ & Hrom & _).
  split; [|split].
  - apply Htwice. left. reflexivity.
  - apply Hrom. right. reflexivity.
  - apply Hraw. reflexivity.
Defined.

Lemma C10_unopened_store_witness :
  isWritable (unopened_raw (F := Mock.mfile) 10 0) = true /\
  exists e1, isOpen (unopened_raw (F := Mock.mfile) 10 0) Mock.card_only
             = Some (false, e1).
Proof.
  apply (proj2 C10_unopened_store_is_writable "RAW:10" 512 Mock.card_only).
  - left. reflexivity.
  - reflexivity.
  - reflexivity.
  - reflexivity.
Defined.

(** * Further properties of the methods *)

(** ** The alignment test *)

(** The test [(uint64_t)sectors * SD_SECTOR_SIZE == bytes], where [sectors]
    is the 32-bit quotient, holds exactly for the multiples of the sector
    size below 2^41: a sector count that does not fit in 32 bits fails it
    as an odd byte count does. *)
Lemma alignment_test_iff (x : Z) :
  0 <= x < 2 ^ 64 ->
  (u64 (u32 (x / SD_SECTOR_SIZE) * SD_SECTOR_SIZE) =? x) = true <->
  x mod SD_SECTOR_SIZE = 0 /\ x < 2 ^ 41.
Proof.
  unfold SD_SECTOR_SIZE. intros Hx. rewrite Z.eqb_eq. split.
  - intros Heq. pose proof (u32_range (x / 512)) as Hk.
    rewrite u64_small in Heq by lia. split.
    + rewrite <- Heq. apply Z_mod_mult.
    + lia.
  - intros [Hmod Hlt].
    assert (Hdiv : x = 512 * (x / 512)).
    { rewrite (Z.div_mod x 512) at 1 by lia. lia. }
    rewrite u32_small by lia. rewrite u64_small; lia.
Qed.

Section Positioning.

Context {F W : Type} {collab : Collaborators F W}.

(** X1.  On a store in Raw mode, [seek] keeps the store in Raw mode exactly
    when the position is a multiple of the sector size below 2^41, and
    [read] and [write] exactly when the count is a multiple of the sector
    size; otherwise the store is in File mode afterwards.  The call returns
    in every case. *)
Theorem X1_demotion_criterion (s : store F) (e : env W) :
  m_israw s = true -> m_isrom s = false ->
  (forall pos, 0 <= pos < 2 ^ 64 ->
     exists b s1 e1,
       seek s pos e = Some (b, s1, e1) /\
       (m_israw s1 = true <-> pos mod SD_SECTOR_SIZE = 0 /\ pos < 2 ^ 41)) /\
  (forall count, 0 <= count < 2 ^ 32 ->
     exists n data s1 e1,
       read s count e = Some (n, data, s1, e1) /\
       (m_israw s1 = true <-> count mod SD_SECTOR_SIZE = 0)) /\
  (forall buf count, 0 <= count < 2 ^ 32 ->
     exists n s1 e1,
       write s buf count e = Some (n, s1, e1) /\
       (m_israw s1 = true <-> count mod SD_SECTOR_SIZE = 0)).
Proof.
  intros Hraw Hrom. split; [|split].
  - intros pos Hpos. pose proof (alignment_test_iff pos Hpos) as Hiff.
    unfold seek. rewrite Hraw. simpl.
    destruct (u64 (u32 (pos / SD_SECTOR_SIZE) * SD_SECTOR_SIZE) =? pos);
      simpl; rewrite ?Hraw, ?Hrom; unfold_monad.
    + do 3 eexists. split; [reflexivity|]. simpl. rewrite Hraw. tauto.
    + destruct (FsFile_seek _ _ _) as [[b f] w].
      do 3 eexists. split; [reflexivity|]. simpl.
      split; [discriminate|]. intros H. apply Hiff in H. discriminate.
  - intros count Hc.
    assert (Hc64 : 0 <= count < 2 ^ 64) by lia.
    pose proof (alignment_test_iff count Hc64) as Hiff.
    unfold read. rewrite Hraw. simpl.
    destruct (u64 (u32 (count / SD_SECTOR_SIZE) * SD_SECTOR_SIZE) =? count);
      simpl; rewrite ?Hraw, ?Hrom; unfold_monad; simpl.
    + destruct (bound (m_blockdev s)); simpl.
      * destruct (readSectors _ _ _) as [[[|] data] w];
          do 4 eexists; (split; [reflexivity|]); simpl; rewrite Hraw;
          intuition lia.
      * rewrite ?Hrom. destruct (FsFile_read _ _ _) as [[[n data] f] w].
        do 4 eexists. split; [reflexivity|]. simpl. rewrite Hraw.
        intuition lia.
    + destruct (FsFile_read _ _ _) as [[[n data] f] w].
      do 4 eexists. split; [reflexivity|]. simpl.
      split; [discriminate|]. intros H.
      assert (false = true) by (apply Hiff; split; [exact H | lia]).
      discriminate.
  - intros buf count Hc.
    assert (Hc64 : 0 <= count < 2 ^ 64) by lia.
    pose proof (alignment_test_iff count Hc64) as Hiff.
    unfold write. rewrite Hraw. simpl.
    destruct (u64 (u32 (count / SD_SECTOR_SIZE) * SD_SECTOR_SIZE) =? count);
      simpl; rewrite ?Hraw, ?Hrom; unfold_monad; simpl.
    + destruct (bound (m_blockdev s)); simpl.
      * destruct (writeSectors _ _ _ _) as [[|] w];
          do 3 eexists; (split; [reflexivity|]); simpl; rewrite Hraw;
          intuition lia.
      * rewrite ?Hrom. destruct (m_isreadonly_attr s).
        -- do 3 eexists. split; [reflexivity|]. rewrite Hraw. intuition lia.
        -- destruct (FsFile_write _ _ _ _) as [[n f] w].
           do 3 eexists. split; [reflexivity|]. simpl. rewrite Hraw.
           intuition lia.
    + destruct (m_isreadonly_attr s).
      * do 3 eexists. split; [reflexivity|]. simpl.
        split; [discriminate|]. intros H.
        assert (false = true) by (apply Hiff; split; [exact H | lia]).
        discriminate.
      * destruct (FsFile_write _ _ _ _) as [[n f] w].
        do 3 eexists. split; [reflexivity|]. simpl.
        split; [discriminate|]. intros H.
        assert (false = true) by (apply Hiff; split; [exact H | lia]).
        discriminate.
Qed.

End Positioning.

Lemma X1_demotion_criterion_witness :
  (exists b s1 e1,
     seek Mock.raw_0_99 (2 ^ 41) Mock.raw_0_99_env = Some (b, s1, e1) /\
     (m_israw s1 = true <->
      2 ^ 41 mod SD_SECTOR_SIZE = 0 /\ 2 ^ 41 < 2 ^ 41)) /\
  (exists n data s1 e1,
     read Mock.raw_0_99 1024 Mock.raw_0_99_env = Some (n, data, s1, e1) /\
     (m_israw s1 = true <-> 1024 mod SD_SECTOR_SIZE = 0)).
Proof.
  destruct (X1_demotion_criterion Mock.raw_0_99 Mock.raw_0_99_env
              eq_refl eq_refl) as (Hseek & Hread & _).
  split.
  - apply Hseek. lia.
  - apply Hread. lia.
Defined.

Section BlockSize.

Context {F W : Type} {collab : Collaborators F W}.

(** X2.  With a block size that is not a multiple of the sector size the
    constructor never gives a store in Raw mode, whatever the name; for a
    [RAW:] name it has then called nothing and the store is not open. *)
Theorem X2_block_size_excludes_raw
  (filename : string) (bs : Z) (e0 e1 : env W) (s : store F) :
  bs mod SD_SECTOR_SIZE <> 0 ->
  ImageBackingStore_open filename bs e0 = Some (s, e1) ->
  m_israw s = false /\
  (strncasecmp filename "RAW:" 4 = 0 ->
   e1 = e0 /\ exists e2, isOpen s e1 = Some (false, e2)).
Proof.
  intros Hbs Hopen. apply Z.eqb_neq in Hbs. split.
  - destruct (Z.eq_dec (strncasecmp filename "RAW:" 4) 0) as [Hraw | Hnraw];
      [|destruct (Z.eq_dec (strncasecmp filename "ROM:" 4) 0) as [Hrom | Hnrom]].
    + destruct (strtoul (advance 4 filename) 0) as [b endptr] eqn:H1.
      destruct (strtoul (next endptr) 0) as [e endptr2] eqn:H2.
      rewrite (open_raw filename endptr endptr2 bs b e e0 Hraw H1 H2) in Hopen.
      rewrite Hbs in Hopen. simpl in Hopen.
      destruct (negb (Ascii.eqb (deref endptr) ":") || negb (Ascii.eqb (deref endptr2) zero));
        inversion Hopen; reflexivity.
    + rewrite (open_rom filename bs e0 Hnraw Hrom) in Hopen.
      destruct (romDriveCheckPresent (world e0)) as [[|] sz];
        inversion Hopen; reflexivity.
    + rewrite (open_file filename bs e0 Hnraw Hnrom) in Hopen.
      rewrite Hbs, andb_false_r in Hopen. inversion Hopen. reflexivity.
  - intros Hpre.
    destruct (strtoul (advance 4 filename) 0) as [b endptr] eqn:H1.
    destruct (strtoul (next endptr) 0) as [e endptr2] eqn:H2.
    rewrite (open_raw filename endptr endptr2 bs b e e0 Hpre H1 H2) in Hopen.
    rewrite Hbs in Hopen. simpl in Hopen.
    destruct (negb (Ascii.eqb (deref endptr) ":") || negb (Ascii.eqb (deref endptr2) zero));
      inversion Hopen; subst; (split; [reflexivity|]);
      unfold isOpen; simpl; unfold_monad; simpl;
      rewrite FsFile_new_closed; eexists; reflexivity.
Qed.

(** X3.  In Raw mode an aligned [seek] below 2^41 calls nothing and moves
    the cursor to the 32-bit sum [m_bgnsector + pos / SD_SECTOR_SIZE]
    whether or not it succeeds; it succeeds when that sector is not above
    [m_endsector].  When moreover the card is bound, the bounds are ordered,
    the end sector is below 2^32 - 1 and the sum fits in 32 bits, it
    succeeds exactly for the positions below [size()]. *)
Theorem X3_raw_seek_succeeds_below_size (s : store F) (e : env W) (pos : Z) :
  m_israw s = true ->
  0 <= pos -> pos mod SD_SECTOR_SIZE = 0 -> pos / SD_SECTOR_SIZE < 2 ^ 32 ->
  let c := u32 (m_bgnsector s + pos / SD_SECTOR_SIZE) in
  seek s pos e = Some (c <=? m_endsector s, set_cursector c s, e) /\
  (bound (m_blockdev s) = true ->
   0 <= m_bgnsector s -> m_bgnsector s <= m_endsector s ->
   m_endsector s < 2 ^ 32 - 1 ->
   m_bgnsector s + pos / SD_SECTOR_SIZE < 2 ^ 32 ->
   c = m_bgnsector s + pos / SD_SECTOR_SIZE /\
   exists n,
     size s e = Some (n, e) /\ (c <=? m_endsector s) = (pos <? n)).
Proof.
  intros Hraw Hpos Hmod Hk32 c. unfold SD_SECTOR_SIZE in *.
  assert (Hk : 0 <= pos / 512) by (apply Z.div_pos; lia).
  assert (Hdiv : pos = 512 * (pos / 512)).
  { rewrite (Z.div_mod pos 512) at 1 by lia. lia. }
  assert (Htest : (u64 (u32 (pos / SD_SECTOR_SIZE) * SD_SECTOR_SIZE) =? pos)
                  = true).
  { apply alignment_test_iff; unfold SD_SECTOR_SIZE; lia. }
  split.
  - unfold seek. rewrite Hraw, Htest. simpl. rewrite Hraw.
    unfold ret. simpl. unfold SD_SECTOR_SIZE.
    rewrite (u32_small (pos / 512)) by lia. reflexivity.
  - intros Hb Hb0 Hbe He Hsum.
    assert (Hc : c = m_bgnsector s + pos / 512).
    { unfold c. apply u32_small. lia. }
    split; [exact Hc|].
    eexists. split.
    + unfold size. rewrite Hraw, Hb. simpl. reflexivity.
    + rewrite Hc. unfold SD_SECTOR_SIZE.
      rewrite (u32_small (m_endsector s - m_bgnsector s + 1)) by lia.
      rewrite u64_small by lia.
      destruct (Z.ltb_spec pos ((m_endsector s - m_bgnsector s + 1) * 512));
        [apply Z.leb_le | apply Z.leb_gt]; lia.
Qed.

End BlockSize.

Lemma X2_block_size_witness :
  m_israw (unopened_raw (F := Mock.mfile) 0 99) = false /\
  exists e2, isOpen (unopened_raw (F := Mock.mfile) 0 99) Mock.card_only
             = Some (false, e2).
Proof.
  destruct (X2_block_size_excludes_raw "RAW:0:99" 520 Mock.card_only
              Mock.card_only (unopened_raw 0 99)) as [Hraw Hopen].
  - discriminate.
  - reflexivity.
  - split; [exact Hraw|]. apply Hopen. reflexivity.
Defined.

Lemma X3_raw_seek_witness :
  seek Mock.raw_0_99 51200 Mock.raw_0_99_env
  = Some (false, set_cursector 100 Mock.raw_0_99, Mock.raw_0_99_env) /\
  exists n,
    size Mock.raw_0_99 Mock.raw_0_99_env = Some (n, Mock.raw_0_99_env) /\
    false = (51200 <? n).
Proof.
  assert (Hpos : 0 <= 51200) by lia.
  assert (Hk : 51200 / SD_SECTOR_SIZE < 2 ^ 32) by (vm_compute; reflexivity).
  destruct (X3_raw_seek_succeeds_below_size Mock.raw_0_99 Mock.raw_0_99_env
              51200 eq_refl Hpos eq_refl Hk) as [Hseek Hsize].
  split; [exact Hseek|].
  destruct Hsize as (_ & n & Hn & Hlt).
  - reflexivity.
  - simpl. lia.
  - simpl. lia.
  - simpl. lia.
  - vm_compute. reflexivity.
  - exists n. split; [exact Hn | exact Hlt].
Defined.

(** ** The ROM drive *)

Lemma strncasecmp_head (s1 s2 : string) (n : nat) :
  strncasecmp s1 s2 (S n) = 0 ->
  tolower (deref s1) = tolower (deref s2) /\
  (tolower (deref s1) = zero \/ strncasecmp (next s1) (next s2) n = 0).
Proof.
  unfold strncasecmp; fold strncasecmp.
  destruct (Ascii.eqb_spec (tolower (deref s1)) (tolower (deref s2)))
    as [Heq | Hneq]; simpl.
  - intros H. split; [exact Heq|].
    destruct (Ascii.eqb_spec (tolower (deref s1)) zero); [left | right];
      assumption.
  - intros H. exfalso. apply Hneq.
    rewrite <- (ascii_N_embedding (tolower (deref s1))).
    rewrite <- (ascii_N_embedding (tolower (deref s2))).
    f_equal. lia.
Qed.

(** A name cannot begin with [ROM:] and with [RAW:]. *)
Lemma rom_name_is_not_raw (filename : string) :
  strncasecmp filename "ROM:" 4 = 0 -> strncasecmp filename "RAW:" 4 <> 0.
Proof.
  intros Hrom Hraw.
  apply strncasecmp_head in Hrom as [Hr1 [Hz | Hrom]];
    [rewrite Hz in Hr1; discriminate Hr1|].
  apply strncasecmp_head in Hraw as [_ [Hz | Hraw]];
    [rewrite Hz in Hr1; discriminate Hr1|].
  apply strncasecmp_head in Hrom as [Hr2 _].
  apply strncasecmp_head in Hraw as [Ha2 _].
  rewrite Hr2 in Ha2. discriminate Ha2.
Qed.

Section RomDrive.

Context {F W : Type} {collab : Collaborators F W}.

(** X4.  In Rom mode [seek] stops at its assertion exactly when the
    position is not a multiple of the sector size below 2^41, and [read]
    exactly when the count is not a multiple of the sector size; no other
    method stops. *)
Theorem X4_rom_assertions (s : store F) (e : env W) :
  mode_of s = Rom ->
  (forall pos, 0 <= pos < 2 ^ 64 ->
     (seek s pos e = None <->
      ~ (pos mod SD_SECTOR_SIZE = 0 /\ pos < 2 ^ 41))) /\
  (forall count, 0 <= count < 2 ^ 32 ->
     (read s count e = None <-> count mod SD_SECTOR_SIZE <> 0)) /\
  (forall o, exec o s e = None ->
     (exists pos, o = OpSeek pos) \/ (exists count, o = OpRead count)).
Proof.
  intros Hm. apply mode_rom in Hm as [Hraw Hrom]. split; [|split].
  - intros pos Hpos. pose proof (alignment_test_iff pos Hpos) as Hiff.
    unfold seek. rewrite Hraw. simpl. rewrite Hraw, Hrom. unfold_monad.
    destruct (u64 (u32 (pos / SD_SECTOR_SIZE) * SD_SECTOR_SIZE) =? pos).
    + split; [discriminate|]. intros H. exfalso. apply H, Hiff. reflexivity.
    + split; [|reflexivity]. intros _ H. apply Hiff in H. discriminate.
  - intros count Hc.
    assert (Hc64 : 0 <= count < 2 ^ 64) by lia.
    pose proof (alignment_test_iff count Hc64) as Hiff.
    unfold read. rewrite Hraw. simpl. rewrite Hraw, Hrom. simpl. unfold_monad.
    destruct (u64 (u32 (count / SD_SECTOR_SIZE) * SD_SECTOR_SIZE) =? count).
    + split.
      * simpl. destruct (romDriveRead _ _ (world e)) as [[|] data];
          discriminate.
      * intros H. exfalso. apply H, Hiff. reflexivity.
    + split; [|reflexivity]. intros _ H.
      assert (false = true) by (apply Hiff; split; [exact H | lia]).
      discriminate.
  - intros o H.
    destruct o; try (left; eexists; reflexivity);
      try (right; eexists; reflexivity); exfalso;
      unfold exec, isOpen, close, size, contiguousRange, write, flush,
        position in H; unfold_monad;
      rewrite ?Hraw, ?Hrom in H; simpl in H;
      rewrite ?Hraw, ?Hrom in H; simpl in H; discriminate H.
Qed.

(** X5.  In Rom mode an aligned [seek] below 2^32 calls nothing, sets the
    cursor, and succeeds exactly when the position is below the image
    size; the [read] that follows asks the ROM drive for [count] bytes at
    that byte position, whatever [seek] returned, and on success leaves the
    cursor [count / SD_SECTOR_SIZE] sectors further. *)
Theorem X5_rom_seek_then_read (s : store F) (e : env W) (pos count : Z) :
  mode_of s = Rom ->
  0 <= pos < 2 ^ 32 -> pos mod SD_SECTOR_SIZE = 0 ->
  0 <= count < 2 ^ 32 -> count mod SD_SECTOR_SIZE = 0 ->
  let s1 := set_cursector (pos / SD_SECTOR_SIZE) s in
  seek s pos e = Some (pos <? m_romhdr_imagesize s, s1, e) /\
  read s1 count e =
  let '(ok, data) := romDriveRead pos count (world e) in
  Some (if ok
        then (ssize_of_size count, data,
              set_cursector
                (u32 (pos / SD_SECTOR_SIZE + count / SD_SECTOR_SIZE)) s1)
        else (-1, data, s1),
        mkEnv (world e) (calls e ++ [Rom_read pos count])).
Proof.
  intros Hm Hpos Hpa Hc Hca s1.
  apply mode_rom in Hm as [Hraw Hrom].
  assert (Hdiv : pos = 512 * (pos / 512)).
  { unfold SD_SECTOR_SIZE in Hpa.
    rewrite (Z.div_mod pos 512) at 1 by lia. lia. }
  assert (Hk : 0 <= pos / 512) by (apply Z.div_pos; lia).
  assert (Hcur : u32 (pos / SD_SECTOR_SIZE * SD_SECTOR_SIZE) = pos).
  { unfold SD_SECTOR_SIZE. rewrite u32_small; lia. }
  split.
  - unfold seek. rewrite Hraw. simpl. rewrite Hraw, Hrom. unfold_monad.
    rewrite (aligned_test pos Hpos Hpa). simpl.
    rewrite (u32_small (pos / SD_SECTOR_SIZE))
      by (unfold SD_SECTOR_SIZE; lia).
    rewrite Hcur. reflexivity.
  - unfold read, s1. simpl. rewrite Hraw. simpl. rewrite Hraw, Hrom. simpl.
    unfold_monad.
    rewrite (aligned_test count Hc Hca). simpl. rewrite Hcur.
    assert (Hcd : 0 <= count / 512 < 2 ^ 32).
    { split; [apply Z.div_pos; lia|]. apply Z.div_lt_upper_bound; lia. }
    rewrite (u32_small (count / SD_SECTOR_SIZE)) by exact Hcd.
    destruct (romDriveRead pos count (world e)) as [[|] data]; reflexivity.
Qed.

(** X6.  For a name that begins with [ROM:], in any letter case and with
    any suffix, the constructor asks the ROM drive once and touches nothing
    else.  The store is in Rom mode exactly when the drive reports an
    image, and then it is not writable, its size is the image size, its
    range is (0, 0) and it is open exactly when the image size is not 0;
    without an image the store is not open. *)
Theorem X6_rom_name (filename : string) (bs : Z) (e0 : env W) :
  strncasecmp filename "ROM:" 4 = 0 ->
  let e1 := mkEnv (world e0) (calls e0 ++ [Rom_checkPresent]) in
  let present := fst (romDriveCheckPresent (world e0)) in
  let imagesize := u32 (snd (romDriveCheckPresent (world e0))) in
  exists s,
    ImageBackingStore_open filename bs e0 = Some (s, e1) /\
    m_israw s = false /\
    isRom s = present /\
    (exists e2, isOpen s e1 = Some (present && (imagesize >? 0), e2)) /\
    (present = true ->
     isWritable s = false /\
     size s e1 = Some (imagesize, e1) /\
     forall b0 e0', contiguousRange s b0 e0' e1 = Some (true, 0, 0, e1)).
Proof.
  intros Hrom e1 present imagesize.
  rewrite (open_rom filename bs e0 (rom_name_is_not_raw filename Hrom) Hrom).
  unfold e1, present, imagesize.
  destruct (romDriveCheckPresent (world e0)) as [[|] sz]; simpl.
  - eexists. split; [reflexivity|]. simpl.
    split; [reflexivity|]. split; [reflexivity|]. split.
    + unfold isOpen. simpl. eexists. reflexivity.
    + intros _. repeat split.
  - eexists. split; [reflexivity|]. simpl.
    split; [reflexivity|]. split; [reflexivity|]. split.
    + unfold isOpen. simpl. unfold_monad. simpl. rewrite FsFile_new_closed.
      eexists. reflexivity.
    + discriminate.
Qed.

End RomDrive.

Lemma X4_rom_assertions_witness :
  (seek Mock.rom_4096 100 Mock.rom_4096_env = None <->
   ~ (100 mod SD_SECTOR_SIZE = 0 /\ 100 < 2 ^ 41)) /\
  (read Mock.rom_4096 512 Mock.rom_4096_env = None <->
   512 mod SD_SECTOR_SIZE <> 0).
Proof.
  destruct (X4_rom_assertions Mock.rom_4096 Mock.rom_4096_env eq_refl)
    as (Hseek & Hread & _).
  split.
  - apply Hseek. lia.
  - apply Hread. lia.
Defined.

Lemma X5_rom_seek_then_read_witness :
  seek Mock.rom_4096 1024 Mock.rom_4096_env
  = Some (1024 <? m_romhdr_imagesize Mock.rom_4096,
          set_cursector (1024 / SD_SECTOR_SIZE) Mock.rom_4096,
          Mock.rom_4096_env) /\
  read (set_cursector (1024 / SD_SECTOR_SIZE) Mock.rom_4096) 512
    Mock.rom_4096_env
  = Some (512, [],
          set_cursector 3 (set_cursector 2 Mock.rom_4096),
          mkEnv (world Mock.rom_4096_env)
            (calls Mock.rom_4096_env ++ [Rom_read 1024 512])).
Proof.
  assert (H : 0 <= 1024 < 2 ^ 32) by lia.
  assert (H' : 0 <= 512 < 2 ^ 32) by lia.
  pose proof (X5_rom_seek_then_read Mock.rom_4096 Mock.rom_4096_env 1024 512
                eq_refl H eq_refl H' eq_refl) as Hx.
  vm_compute in Hx. vm_compute. exact Hx.
Defined.

Lemma X6_rom_name_witness :
  exists s,
    ImageBackingStore_open "rom:image" 512 (Mock.with_rom 4096)
    = Some (s, Mock.rom_4096_env) /\
    m_israw s = false /\
    isRom s = true /\
    (exists e2, isOpen s Mock.rom_4096_env = Some (true, e2)) /\
    isWritable s = false /\
    size s Mock.rom_4096_env = Some (4096, Mock.rom_4096_env) /\
    forall b0 e0',
      contiguousRange s b0 e0' Mock.rom_4096_env
      = Some (true, 0, 0, Mock.rom_4096_env).
Proof.
  destruct (X6_rom_name (F := Mock.mfile) "rom:image" 512 (Mock.with_rom 4096)
              eq_refl) as (s & Hopen & Hraw & Hrom & Hisopen & Hpresent).
  exists s. split; [exact Hopen|]. split; [exact Hraw|].
  split; [exact Hrom|]. split; [exact Hisopen|]. apply Hpresent. reflexivity.
Defined.

(** ** Raw mode and the file behind it *)

Section RawAndFile.

Context {F W : Type} {collab : Collaborators F W}.

(** A store the constructor leaves in Raw mode has the card bound and is
    not in Rom mode. *)
Lemma open_raw_bound (filename : string) (bs : Z) (e0 e1 : env W) (s : store F) :
  ImageBackingStore_open filename bs e0 = Some (s, e1) ->
  m_israw s = true ->
  m_blockdev s = Some SdCard /\ m_isrom s = false.
Proof.
  intros H. unfold ImageBackingStore_open in H.
  break_all H; simpl; intros; split; congruence.
Qed.

(** The Raw path of [write]: the sectors go to the card at the cursor, and
    nothing else is looked at. *)
Lemma write_raw (s : store F) (buf : list byte) (count : Z) (e : env W) :
  m_israw s = true -> bound (m_blockdev s) = true ->
  0 <= count < 2 ^ 32 -> count mod SD_SECTOR_SIZE = 0 ->
  write s buf count e =
  let '(ok, w) := writeSectors (m_cursector s) buf (count / SD_SECTOR_SIZE)
                    (world e) in
  Some (if ok
        then (ssize_of_size count,
              set_cursector (u32 (m_cursector s + count / SD_SECTOR_SIZE)) s)
        else (0, s),
        mkEnv w (calls e ++
                 [Card_writeSectors (m_cursector s) (count / SD_SECTOR_SIZE)])).
Proof.
  intros Hraw Hb Hc Ha.
  assert (Hcd : 0 <= count / SD_SECTOR_SIZE < 2 ^ 32).
  { unfold SD_SECTOR_SIZE.
    split; [apply Z.div_pos; lia|]. apply Z.div_lt_upper_bound; lia. }
  unfold write. rewrite Hraw, (aligned_test count Hc Ha). simpl.
  rewrite Hraw, Hb. simpl. unfold_monad. simpl.
  rewrite (u32_small (count / SD_SECTOR_SIZE)) by exact Hcd.
  destruct (writeSectors _ _ _ _) as [[|] w]; reflexivity.
Qed.

(** The Raw path of [read]. *)
Lemma read_raw (s : store F) (count : Z) (e : env W) :
  m_israw s = true -> bound (m_blockdev s) = true ->
  0 <= count < 2 ^ 32 -> count mod SD_SECTOR_SIZE = 0 ->
  read s count e =
  let '(ok, data, w) := readSectors (m_cursector s) (count / SD_SECTOR_SIZE)
                          (world e) in
  Some (if ok
        then (ssize_of_size count, data,
              set_cursector (u32 (m_cursector s + count / SD_SECTOR_SIZE)) s)
        else (-1, data, s),
        mkEnv w (calls e ++
                 [Card_readSectors (m_cursector s) (count / SD_SECTOR_SIZE)])).
Proof.
  intros Hraw Hb Hc Ha.
  assert (Hcd : 0 <= count / SD_SECTOR_SIZE < 2 ^ 32).
  { unfold SD_SECTOR_SIZE.
    split; [apply Z.div_pos; lia|]. apply Z.div_lt_upper_bound; lia. }
  unfold read. rewrite Hraw, (aligned_test count Hc Ha). simpl.
  rewrite Hraw, Hb. simpl. unfold_monad. simpl.
  rewrite (u32_small (count / SD_SECTOR_SIZE)) by exact Hcd.
  destruct (readSectors _ _ _) as [[[|] data] w]; reflexivity.
Qed.

(** X7.  A store that the constructor left in Raw mode with the read-only
    attribute set, which is a promoted read-only file, reports that it is
    not writable, and yet an aligned [write] hands the sectors to the
    card's [writeSectors]: the attribute is looked at only on the file
    path. *)
Theorem X7_raw_write_ignores_readonly
  (filename : string) (bs : Z) (e0 e1 : env W) (s : store F)
  (buf : list byte) (count : Z) :
  ImageBackingStore_open filename bs e0 = Some (s, e1) ->
  m_israw s = true -> m_isreadonly_attr s = true ->
  0 <= count < 2 ^ 32 -> count mod SD_SECTOR_SIZE = 0 ->
  isWritable s = false /\
  write s buf count e1 =
  let '(ok, w) := writeSectors (m_cursector s) buf (count / SD_SECTOR_SIZE)
                    (world e1) in
  Some (if ok
        then (ssize_of_size count,
              set_cursector (u32 (m_cursector s + count / SD_SECTOR_SIZE)) s)
        else (0, s),
        mkEnv w (calls e1 ++
                 [Card_writeSectors (m_cursector s) (count / SD_SECTOR_SIZE)])).
Proof.
  intros Hopen Hraw Hro Hc Ha.
  destruct (open_raw_bound filename bs e0 e1 s Hopen Hraw) as [Hdev Hrom].
  split.
  - unfold isWritable. rewrite Hro. apply andb_false_r.
  - apply write_raw; try assumption. rewrite Hdev. reflexivity.
Qed.

(** X8.  [close] on a store in Raw mode leaves the file object as it was:
    it is not closed and not flushed.  On the closed store [size] is
    the size of the file object, and an aligned [read] is passed to the
    file object, not to the card. *)
Theorem X8_raw_close_leaves_file (s : store F) (e : env W) :
  m_israw s = true -> m_isrom s = false ->
  let s1 := set_blockdev None s in
  close s e = Some (true, s1, e) /\
  m_fsfile s1 = m_fsfile s /\
  size s1 e =
  Some (u64 (FsFile_size (m_fsfile s)), mkEnv (world e) (calls e ++ [Fs_size])) /\
  forall count,
    0 <= count < 2 ^ 32 -> count mod SD_SECTOR_SIZE = 0 ->
    read s1 count e =
    let '(n, data, f, w) := FsFile_read (m_fsfile s) count (world e) in
    Some (n, data, set_fsfile f s1, mkEnv w (calls e ++ [Fs_read count])).
Proof.
  intros Hraw Hrom s1. split; [|split; [|split]].
  - unfold close. rewrite Hraw. reflexivity.
  - reflexivity.
  - unfold size, s1. simpl. rewrite Hraw, Hrom. reflexivity.
  - intros count Hc Ha. unfold read, s1. simpl.
    rewrite Hraw, (aligned_test count Hc Ha). simpl.
    rewrite Hraw, Hrom. simpl. unfold_monad.
    destruct (FsFile_read _ _ _) as [[[n data] f] w]. reflexivity.
Qed.

(** No method writes [m_isreadonly_attr]. *)
Lemma exec_readonly (o : op) (s s1 : store F) (e e1 : env W) (r : result) :
  exec o s e = Some (r, s1, e1) ->
  m_isreadonly_attr s1 = m_isreadonly_attr s.
Proof.
  intros H. destruct o; unfold exec, isOpen, close, size, contiguousRange,
    seek, read, write, flush, position in H;
    break_all H; congruence.
Qed.

(** X10.  What [isWritable] and [isRom] return never changes in the life of
    a store: not by a demotion to File mode, and not by [close]. *)
Theorem X10_writable_is_fixed (x y : store F * env W) :
  steps x y ->
  isWritable (fst y) = isWritable (fst x) /\ isRom (fst y) = isRom (fst x).
Proof.
  induction 1 as [x | o s e r s1 e1 y Hexec Hsteps IH].
  - split; reflexivity.
  - destruct IH as [IHw IHr]. simpl in *. unfold isWritable, isRom in *.
    rewrite IHw, IHr.
    rewrite (exec_isrom _ _ _ _ _ _ Hexec), (exec_readonly _ _ _ _ _ _ Hexec).
    split; reflexivity.
Qed.

(** A store in File mode whose file object is not open stays so. *)
Lemma exec_no_file (o : op) (s s1 : store F) (e e1 : env W) (r : result) :
  closed_file_stays_closed ->
  exec o s e = Some (r, s1, e1) ->
  mode_of s = File -> FsFile_isOpen (m_fsfile s) = false ->
  mode_of s1 = File /\ FsFile_isOpen (m_fsfile s1) = false.
Proof.
  intros Hc Hexec Hm Hf. split; [eapply exec_file; eassumption|].
  apply mode_file in Hm as [Hraw Hrom].
  destruct (Hc (m_fsfile s) (world e) Hf) as (Hseek & Hread & Hwrite & Hflush).
  pose proof (FsFile_close_closed (m_fsfile s) (world e)) as Hclose.
  destruct o; unfold exec, isOpen, close, size, contiguousRange,
    seek, read, write, flush, position in Hexec;
    rewrite ?Hraw in Hexec; simpl in Hexec; rewrite ?Hraw, ?Hrom in Hexec;
    simpl in Hexec; unfold_monad; simpl in Hexec.
  - inversion Hexec; subst; assumption.
  - inversion Hexec; subst; assumption.
  - inversion Hexec; subst; assumption.
  - destruct (FsFile_close _ _) as [[b f] w]. inversion Hexec; subst.
    exact Hclose.
  - inversion Hexec; subst; assumption.
  - destruct (FsFile_contiguousRange _ _ _ _) as [[ok b] e'].
    inversion Hexec; subst; assumption.
  - specialize (Hseek pos). destruct (FsFile_seek _ _ _) as [[b f] w].
    inversion Hexec; subst. exact Hseek.
  - specialize (Hread count).
    destruct (FsFile_read _ _ _) as [[[n data] f] w].
    inversion Hexec; subst. exact Hread.
  - specialize (Hwrite buf count). destruct (m_isreadonly_attr s).
    + inversion Hexec; subst; assumption.
    + destruct (FsFile_write _ _ _ _) as [[n f] w].
      inversion Hexec; subst. exact Hwrite.
  - destruct (m_isreadonly_attr s); simpl in Hexec.
    + inversion Hexec; subst; assumption.
    + destruct (FsFile_flush _ _) as [f w]. inversion Hexec; subst.
      exact Hflush.
  - inversion Hexec; subst; assumption.
Qed.

Lemma steps_no_file (x y : store F * env W) :
  closed_file_stays_closed ->
  steps x y ->
  mode_of (fst x) = File -> FsFile_isOpen (m_fsfile (fst x)) = false ->
  mode_of (fst y) = File /\ FsFile_isOpen (m_fsfile (fst y)) = false.
Proof.
  intros Hc. induction 1 as [x | o s e r s1 e1 y Hexec Hsteps IH];
    intros Hm Hf.
  - split; assumption.
  - destruct (exec_no_file o s s1 e e1 r Hc Hexec Hm Hf) as [Hm1 Hf1].
    apply IH; assumption.
Qed.

(** X9.  A store built from an accepted [RAW:] name has no file behind it.
    The first unaligned [seek], [read] or [write] returns, and after it
    [isOpen] returns false for good, whatever is called later, as long as
    SdFat's methods do not open a file object that is not open. *)
Theorem X9_unaligned_access_ends_raw_name
  (filename : string) (bs b e : Z) (e0 : env W) (o : op) :
  closed_file_stays_closed ->
  raw_descriptor filename b e -> bs mod SD_SECTOR_SIZE = 0 ->
  unaligned o ->
  exists s e1 r s1 e2,
    ImageBackingStore_open filename bs e0 = Some (s, e1) /\
    isOpen s e1 = Some (true, e1) /\
    exec o s e1 = Some (r, s1, e2) /\
    forall s2 e3, steps (s1, e2) (s2, e3) ->
      exists e4, isOpen s2 e3 = Some (false, e4).
Proof.
  intros Hc Hd Hbs Hu.
  rewrite (open_raw_descriptor filename bs b e e0 Hd Hbs). cbv zeta.
  set (s := mkStore true false false 0 FsFile_new (Some SdCard) _ _ 0).
  set (e1 := mkEnv (world e0) _).
  assert (Hm : mode_of (set_israw false s) = File) by reflexivity.
  assert (Hf : FsFile_isOpen (m_fsfile (set_israw false s)) = false)
    by apply FsFile_new_closed.
  destruct (exec_file_returns o (set_israw false s) e1 Hm)
    as (r & s1 & e2 & Hexec).
  exists s, e1, r, s1, e2.
  split; [reflexivity|]. split; [reflexivity|].
  split; [rewrite exec_unaligned by (reflexivity || assumption); exact Hexec|].
  intros s2 e3 Hsteps.
  destruct (exec_no_file o _ s1 e1 e2 r Hc Hexec Hm Hf) as [Hm1 Hf1].
  destruct (steps_no_file _ _ Hc Hsteps Hm1 Hf1) as [Hm2 Hf2].
  simpl in Hm2, Hf2. apply mode_file in Hm2 as [Hraw Hrom].
  unfold isOpen. rewrite Hraw, Hrom. unfold_monad. simpl. rewrite Hf2.
  eexists. reflexivity.
Qed.

End RawAndFile.

(** The promoted store of the test double is what the constructor builds. *)
Lemma promoted_constructed :
  ImageBackingStore_open "image.img" 512 Promoted.before
  = Some (Promoted.st, Promoted.after).
Proof. reflexivity. Defined.

(** The file object of the test double honours the contract of a file that
    is not open. *)
Lemma mock_closed_file_stays_closed :
  closed_file_stays_closed (F := Mock.mfile) (W := Mock.mworld).
Proof.
  intros f w Hf. simpl in Hf. repeat split; intros; simpl;
    unfold Mock.mseek, Mock.mread, Mock.mwrite; rewrite ?Hf; simpl;
    rewrite ?Hf; reflexivity.
Defined.

Lemma X7_raw_write_ignores_readonly_witness :
  isWritable Promoted.st = false /\
  write Promoted.st [] 512 Promoted.after
  = Some (512, set_cursector 1 Promoted.st,
          mkEnv (world Promoted.after)
            (calls Promoted.after ++ [Card_writeSectors 0 1])).
Proof.
  assert (H : 0 <= 512 < 2 ^ 32) by lia.
  pose proof (X7_raw_write_ignores_readonly "image.img" 512
                Promoted.before Promoted.after Promoted.st [] 512
                promoted_constructed eq_refl eq_refl H eq_refl) as Hx.
  vm_compute in Hx. vm_compute. exact Hx.
Defined.

Lemma X8_raw_close_leaves_file_witness :
  close Promoted.st Promoted.after
  = Some (true, set_blockdev None Promoted.st, Promoted.after) /\
  Mock.f_open (m_fsfile (set_blockdev None Promoted.st)) = true /\
  read (set_blockdev None Promoted.st) 512 Promoted.after
  = Some (512, [],
          set_fsfile (Mock.mkFile true 1024 512 (Some (100, 163)))
            (set_blockdev None Promoted.st),
          mkEnv (world Promoted.after) (calls Promoted.after ++ [Fs_read 512])).
Proof.
  destruct (X8_raw_close_leaves_file Promoted.st Promoted.after
              eq_refl eq_refl) as (Hclose & _ & _ & Hread).
  split; [exact Hclose|]. split; [reflexivity|].
  assert (H : 0 <= 512 < 2 ^ 32) by lia.
  specialize (Hread 512 H eq_refl).
  vm_compute in Hread. vm_compute. exact Hread.
Defined.

Lemma X9_unaligned_access_witness :
  exists s e1 r s1 e2,
    ImageBackingStore_open "RAW:0:99" 512 Mock.card_only = Some (s, e1) /\
    isOpen s e1 = Some (true, e1) /\
    exec (OpRead 100) s e1 = Some (r, s1, e2) /\
    forall s2 e3, steps (s1, e2) (s2, e3) ->
      exists e4, isOpen s2 e3 = Some (false, e4).
Proof.
  apply (X9_unaligned_access_ends_raw_name "RAW:0:99" 512 0 99).
  - exact mock_closed_file_stays_closed.
  - exact mock_raw_descriptor_0_99.
  - reflexivity.
  - simpl. unfold SD_SECTOR_SIZE. discriminate.
Defined.

Lemma X10_writable_is_fixed_witness :
  isWritable (mkStore false false true 0
                (Mock.mkFile true 1024 0 (Some (100, 163)))
                (Some SdCard) 100 101 0)
  = isWritable Promoted.st /\
  isRom (mkStore false false true 0
           (Mock.mkFile true 1024 0 (Some (100, 163)))
           (Some SdCard) 100 101 0)
  = isRom Promoted.st.
Proof.
  apply (X10_writable_is_fixed
           (Promoted.st, Promoted.after)
           (mkStore false false true 0
              (Mock.mkFile true 1024 0 (Some (100, 163)))
              (Some SdCard) 100 101 0,
            Promoted.after)).
  apply (steps_step (OpWrite [] 100) Promoted.st Promoted.after (RSize 0)
           (mkStore false false true 0
              (Mock.mkFile true 1024 0 (Some (100, 163)))
              (Some SdCard) 100 101 0)
           Promoted.after).
  - reflexivity.
  - apply steps_refl.
Defined.

(** ** Transfers in Raw mode *)

Section Transfers.

Context {F W : Type} {collab : Collaborators F W}.

(** The Raw path of [seek]. *)
Lemma seek_raw (s : store F) (pos : Z) (e : env W) :
  m_israw s = true ->
  0 <= pos -> pos mod SD_SECTOR_SIZE = 0 -> pos / SD_SECTOR_SIZE < 2 ^ 32 ->
  seek s pos e =
  Some (u32 (m_bgnsector s + pos / SD_SECTOR_SIZE) <=? m_endsector s,
        set_cursector (u32 (m_bgnsector s + pos / SD_SECTOR_SIZE)) s, e).
Proof.
  intros Hraw Hpos Ha Hk.
  assert (Hk0 : 0 <= pos / SD_SECTOR_SIZE)
    by (unfold SD_SECTOR_SIZE; apply Z.div_pos; lia).
  assert (Htest : (u64 (u32 (pos / SD_SECTOR_SIZE) * SD_SECTOR_SIZE) =? pos)
                  = true).
  { apply alignment_test_iff.
    - unfold SD_SECTOR_SIZE in *.
      rewrite (Z.div_mod pos 512) by lia. lia.
    - split; [exact Ha|]. unfold SD_SECTOR_SIZE in *.
      rewrite (Z.div_mod pos 512) by lia. lia. }
  unfold seek. rewrite Hraw, Htest. simpl. rewrite Hraw.
  rewrite (u32_small (pos / SD_SECTOR_SIZE)) by lia. reflexivity.
Qed.


(** X12.  Round trip in Raw mode: after [seek] to an aligned position, an
    aligned [write] that the card accepts, and [seek] to the same position,
    [read] of the same count asks the card for the sectors just written; if
    the card gives back what was written to it, [read] returns the count
    and the bytes of the buffer. *)
Theorem X12_raw_write_then_read_back
  (s : store F) (e : env W) (pos count : Z) (buf : list byte) :
  m_israw s = true -> bound (m_blockdev s) = true ->
  0 <= pos -> pos mod SD_SECTOR_SIZE = 0 -> pos / SD_SECTOR_SIZE < 2 ^ 32 ->
  0 <= count < 2 ^ 32 -> count mod SD_SECTOR_SIZE = 0 ->
  let sector := u32 (m_bgnsector s + pos / SD_SECTOR_SIZE) in
  let n := count / SD_SECTOR_SIZE in
  fst (writeSectors sector buf n (world e)) = true ->
  fst (readSectors sector n (snd (writeSectors sector buf n (world e))))
  = (true, buf) ->
  exists ok1 s1 s2 e2 ok3 s3 s4 e4,
    seek s pos e = Some (ok1, s1, e) /\
    write s1 buf count e = Some (ssize_of_size count, s2, e2) /\
    seek s2 pos e2 = Some (ok3, s3, e2) /\
    read s3 count e2 = Some (ssize_of_size count, buf, s4, e4).
Proof.
  intros Hraw Hb Hpos Hpa Hk Hc Hca sector n Hw Hr.
  pose proof (seek_raw s pos e Hraw Hpos Hpa Hk) as H1. fold sector in H1.
  set (s1 := set_cursector sector s) in *.
  assert (Hraw1 : m_israw s1 = true) by exact Hraw.
  assert (Hb1 : bound (m_blockdev s1) = true) by exact Hb.
  pose proof (write_raw s1 buf count e Hraw1 Hb1 Hc Hca) as H2.
  change (m_cursector s1) with sector in H2. fold n in H2.
  destruct (writeSectors sector buf n (world e)) as [ok w] eqn:Hwr.
  simpl in Hw, Hr. subst ok.
  set (s2 := set_cursector (u32 (sector + n)) s1) in *.
  set (e2 := mkEnv w (calls e ++ [Card_writeSectors sector n])) in *.
  assert (Hraw2 : m_israw s2 = true) by exact Hraw.
  pose proof (seek_raw s2 pos e2 Hraw2 Hpos Hpa Hk) as H3.
  change (m_bgnsector s2) with (m_bgnsector s) in H3. fold sector in H3.
  set (s3 := set_cursector sector s2) in *.
  assert (Hraw3 : m_israw s3 = true) by exact Hraw.
  assert (Hb3 : bound (m_blockdev s3) = true) by exact Hb.
  pose proof (read_raw s3 count e2 Hraw3 Hb3 Hc Hca) as H4.
  change (m_cursector s3) with sector in H4. fold n in H4.
  change (world e2) with w in H4.
  destruct (readSectors sector n w) as [[ok data] w'].
  simpl in Hr. inversion Hr; subst ok data.
  exists (sector <=? m_endsector s), s1, s2, e2.
  exists (sector <=? m_endsector s2), s3.
  do 2 eexists.
  split; [exact H1|]. split; [exact H2|]. split; [exact H3|]. exact H4.
Qed.

(** X14.  The constructor leaves the cursor at 0 in every mode, not at the
    begin sector: an aligned [read] on a freshly built Raw store, without a
    [seek] before it, asks the card for sector 0. *)
Theorem X14_first_transfer_without_seek
  (filename : string) (bs : Z) (e0 e1 : env W) (s : store F) (count : Z) :
  ImageBackingStore_open filename bs e0 = Some (s, e1) ->
  m_cursector s = 0 /\
  (m_israw s = true ->
   0 <= count < 2 ^ 32 -> count mod SD_SECTOR_SIZE = 0 ->
   exists n data s1 e2,
     read s count e1 = Some (n, data, s1, e2) /\
     calls e2 = (calls e1 ++ [Card_readSectors 0 (count / SD_SECTOR_SIZE)])%list).
Proof.
  intros Hopen.
  assert (Hcur : m_cursector s = 0).
  { unfold ImageBackingStore_open in Hopen. break_all Hopen; reflexivity. }
  split; [exact Hcur|].
  intros Hraw Hc Ha.
  destruct (open_raw_bound filename bs e0 e1 s Hopen Hraw) as [Hdev _].
  assert (Hb : bound (m_blockdev s) = true) by (rewrite Hdev; reflexivity).
  rewrite (read_raw s count e1 Hraw Hb Hc Ha), Hcur.
  destruct (readSectors 0 (count / SD_SECTOR_SIZE) (world e1))
    as [[[|] data] w]; do 4 eexists; split; reflexivity.
Qed.

End Transfers.


Lemma X12_raw_write_then_read_back_witness :
  exists ok1 s1 s2 e2 ok3 s3 s4 e4,
    seek Ram.raw_0_3 512 Ram.raw_0_3_env = Some (ok1, s1, Ram.raw_0_3_env) /\
    write s1 Ram.ones 512 Ram.raw_0_3_env = Some (ssize_of_size 512, s2, e2) /\
    seek s2 512 e2 = Some (ok3, s3, e2) /\
    read s3 512 e2 = Some (ssize_of_size 512, Ram.ones, s4, e4).
Proof.
  assert (Hc : 0 <= 512 < 2 ^ 32) by lia.
  apply (X12_raw_write_then_read_back Ram.raw_0_3 Ram.raw_0_3_env 512 512
           Ram.ones eq_refl eq_refl);
    try exact Hc; try lia; vm_compute; reflexivity.
Defined.

Lemma X14_first_transfer_witness :
  m_cursector Promoted.st = 0 /\
  m_bgnsector Promoted.st = 100 /\
  exists n data s1 e2,
    read Promoted.st 512 Promoted.after = Some (n, data, s1, e2) /\
    calls e2 = (calls Promoted.after ++
                [Card_readSectors 0 (512 / SD_SECTOR_SIZE)])%list.
Proof.
  destruct (X14_first_transfer_without_seek "image.img" 512 Promoted.before
              Promoted.after Promoted.st 512 promoted_constructed)
    as [Hcur Hread].
  split; [exact Hcur|]. split; [reflexivity|].
  apply Hread; [reflexivity | lia | reflexivity].
Defined.

Section PromotedSize.

Context {F W : Type} {collab : Collaborators F W}.

(** X13.  The size of a promoted file.  When the constructor turns a file
    into a Raw store, [size()] is the file's count of whole sectors times
    the sector size, the bytes after the last whole sector being left out;
    with [UseFATAllocSize] set in the configuration, and a run that does
    not end at [begin + sectorcount], it is the length of the whole run
    instead.  (The sums are taken to fit in 32 bits.) *)
Theorem X13_promoted_size
  (filename : string) (bs : Z) (e0 e1 : env W) (s : store F) :
  strncasecmp filename "RAW:" 4 <> 0 ->
  strncasecmp filename "ROM:" 4 <> 0 ->
  ImageBackingStore_open filename bs e0 = Some (s, e1) ->
  m_israw s = true ->
  let p := file_probe filename (world e0) in
  p_begin p + p_sectorcount p < 2 ^ 32 ->
  p_end p - p_begin p + 1 < 2 ^ 32 ->
  let usealloc :=
    negb (p_end p =? p_begin p + p_sectorcount p)
    && ini_getbool "SCSI" "UseFATAllocSize" false CONFIGFILE (p_world p) in
  size s e1 =
  Some ((if usealloc then p_end p - p_begin p + 1 else p_sectorcount p)
        * SD_SECTOR_SIZE, e1).
Proof.
  intros Hnraw Hnrom Hopen Hraw p Hsum Hspan usealloc.
  rewrite (open_file filename bs e0 Hnraw Hnrom) in Hopen.
  fold p in Hopen.
  assert (Hb : 0 <= p_begin p < 2 ^ 32).
  { unfold p, file_probe. repeat break_goal; simpl; apply u32_range. }
  assert (He : 0 <= p_end p < 2 ^ 32).
  { unfold p, file_probe. repeat break_goal; simpl; apply u32_range. }
  assert (Hs : 0 <= p_sectorcount p < 2 ^ 32).
  { unfold p, file_probe. repeat break_goal; simpl; apply u32_range. }
  rewrite (u32_small (p_begin p + p_sectorcount p)) in Hopen by lia.
  fold usealloc in Hopen.
  destruct (p_contiguous p); simpl in Hopen;
    [|inversion Hopen; subst; discriminate].
  destruct (p_end p >=? p_begin p + p_sectorcount p) eqn:Hge;
    simpl in Hopen; [|inversion Hopen; subst; discriminate].
  destruct (bs mod SD_SECTOR_SIZE =? 0);
    [|inversion Hopen; subst; discriminate].
  rewrite Z.geb_leb in Hge. apply Z.leb_le in Hge.
  destruct (FsFile_flush (p_file p) (p_world p)) as [f w].
  inversion Hopen; subst s e1. clear Hopen.
  unfold size. simpl. unfold ret. f_equal. f_equal.
  unfold SD_SECTOR_SIZE, usealloc.
  destruct (negb (p_end p =? p_begin p + p_sectorcount p)
            && ini_getbool "SCSI" "UseFATAllocSize" false CONFIGFILE (p_world p)).
  - rewrite (u32_small (p_end p - p_begin p + 1)) by lia.
    replace (u32 (p_begin p + (p_end p - p_begin p + 1) - 1)) with (p_end p)
      by (rewrite u32_small; lia).
    rewrite (u32_small (p_end p - p_begin p + 1)) by lia.
    rewrite u64_small; lia.
  - destruct (Z.eq_dec (p_begin p + p_sectorcount p) 0) as [Hz | Hnz].
    + assert (Hb0 : p_begin p = 0) by lia.
      assert (Hs0 : p_sectorcount p = 0) by lia.
      rewrite Hb0, Hs0. reflexivity.
    + rewrite (u32_small (p_begin p + p_sectorcount p - 1)) by lia.
      rewrite (u32_small (p_begin p + p_sectorcount p - 1 - p_begin p + 1))
        by lia.
      rewrite u64_small; lia.
Qed.

End PromotedSize.

Lemma X13_promoted_size_witness :
  size Promoted.st Promoted.after = Some (2 * SD_SECTOR_SIZE, Promoted.after).
Proof.
  assert (H1 : 100 + 2 < 2 ^ 32) by lia.
  assert (H2 : 163 - 100 + 1 < 2 ^ 32) by lia.
  pose proof (X13_promoted_size "image.img" 512 Promoted.before
                Promoted.after Promoted.st) as Hx.
  vm_compute in Hx. vm_compute.
  apply Hx; try discriminate; reflexivity.
Defined.

(** ** Which collaborator a mode uses *)

Section Footprint.

Context {F W : Type} {collab : Collaborators F W}.

(** X15.  In File mode every method leaves all fields of the store but
    the file object as they were, and calls nothing but the file object:
    neither the card nor the ROM drive. *)
Theorem X15_file_mode_footprint
  (o : op) (s s1 : store F) (e e1 : env W) (r : result) :
  mode_of s = File ->
  exec o s e = Some (r, s1, e1) ->
  s1 = set_fsfile (m_fsfile s1) s /\
  exists l, calls e1 = (calls e ++ l)%list /\ forallb is_file_call l = true.
Proof.
  intros Hm Hexec. apply mode_file in Hm as [Hraw Hrom].
  destruct o; unfold exec, isOpen, close, size, contiguousRange,
    seek, read, write, flush, position in Hexec;
    rewrite ?Hraw in Hexec; simpl in Hexec; rewrite ?Hraw, ?Hrom in Hexec;
    simpl in Hexec; unfold_monad; simpl in Hexec;
    repeat (break_step; simpl in * );
    (split; [repeat match goal with x : store F |- _ => destruct x end;
             reflexivity|]);
    first [ exists []; split; [symmetry; apply app_nil_r | reflexivity]
          | eexists; split; [reflexivity | reflexivity] ].
Qed.

(** X16.  A store in Raw mode with the card bound, used with aligned
    positions and counts, stays in Raw mode with the card bound, never
    touches its file object, and calls nothing but the card; [close], which
    unbinds the card, is the one method left out. *)
Theorem X16_raw_mode_footprint
  (o : op) (s s1 : store F) (e e1 : env W) (r : result) :
  m_israw s = true -> bound (m_blockdev s) = true ->
  o <> OpClose ->
  aligned o ->
  exec o s e = Some (r, s1, e1) ->
  m_israw s1 = true /\ bound (m_blockdev s1) = true /\
  m_fsfile s1 = m_fsfile s /\
  exists l, calls e1 = (calls e ++ l)%list /\ forallb is_card_call l = true.
Proof.
  intros Hraw Hb Hnc Ha Hexec.
  destruct o; simpl in Ha; try congruence.
  - unfold exec, isOpen in Hexec. rewrite Hraw in Hexec.
    unfold_monad. inversion Hexec; subst.
    repeat split; try assumption. exists []. split; [symmetry; apply app_nil_r | reflexivity].
  - unfold exec in Hexec. unfold_monad. inversion Hexec; subst.
    repeat split; try assumption. exists []. split; [symmetry; apply app_nil_r | reflexivity].
  - unfold exec in Hexec. unfold_monad. inversion Hexec; subst.
    repeat split; try assumption. exists []. split; [symmetry; apply app_nil_r | reflexivity].
  - unfold exec, size in Hexec. rewrite Hraw, Hb in Hexec.
    unfold_monad. simpl in Hexec. inversion Hexec; subst.
    repeat split; try assumption. exists []. split; [symmetry; apply app_nil_r | reflexivity].
  - unfold exec, contiguousRange in Hexec. rewrite Hraw, Hb in Hexec.
    unfold_monad. simpl in Hexec. inversion Hexec; subst.
    repeat split; try assumption. exists []. split; [symmetry; apply app_nil_r | reflexivity].
  - destruct Ha as [Hpos Hmod].
    assert (Hk : pos / SD_SECTOR_SIZE < 2 ^ 32).
    { unfold SD_SECTOR_SIZE. apply Z.div_lt_upper_bound; lia. }
    unfold exec in Hexec. unfold bind in Hexec.
    rewrite (seek_raw s pos e Hraw (proj1 Hpos) Hmod Hk) in Hexec.
    unfold ret in Hexec. inversion Hexec; subst.
    repeat split; try assumption. exists []. split; [symmetry; apply app_nil_r | reflexivity].
  - destruct Ha as [Hc Hmod]. unfold exec in Hexec. unfold bind in Hexec.
    rewrite (read_raw s count e Hraw Hb Hc Hmod) in Hexec.
    destruct (readSectors _ _ _) as [[[|] data] w];
      unfold ret in Hexec; inversion Hexec; subst;
      (repeat split; try assumption);
      eexists; (split; [reflexivity | reflexivity]).
  - destruct Ha as [Hc Hmod]. unfold exec in Hexec. unfold bind in Hexec.
    rewrite (write_raw s buf count e Hraw Hb Hc Hmod) in Hexec.
    destruct (writeSectors _ _ _ _) as [[|] w];
      unfold ret in Hexec; inversion Hexec; subst;
      (repeat split; try assumption);
      eexists; (split; [reflexivity | reflexivity]).
  - unfold exec, flush in Hexec. rewrite Hraw in Hexec.
    unfold_monad. simpl in Hexec. inversion Hexec; subst.
    repeat split; try assumption. exists []. split; [symmetry; apply app_nil_r | reflexivity].
  - unfold exec, position in Hexec. rewrite Hraw in Hexec.
    unfold_monad. simpl in Hexec. inversion Hexec; subst.
    repeat split; try assumption. exists []. split; [symmetry; apply app_nil_r | reflexivity].
Qed.

End Footprint.

Lemma X15_file_mode_footprint_witness :
  exists r s1 e1,
    exec (OpWrite [] 100) Mock.writable_file Mock.writable_file_env
    = Some (r, s1, e1) /\
    s1 = set_fsfile (m_fsfile s1) Mock.writable_file /\
    exists l, calls e1 = (calls Mock.writable_file_env ++ l)%list /\
              forallb is_file_call l = true.
Proof.
  do 3 eexists. split; [reflexivity|].
  apply (X15_file_mode_footprint (OpWrite [] 100) Mock.writable_file _
           Mock.writable_file_env _ (RSize 100)); reflexivity.
Defined.

Lemma X16_raw_mode_footprint_witness :
  exists r s1 e1,
    exec (OpRead 512) Mock.raw_0_99 Mock.raw_0_99_env = Some (r, s1, e1) /\
    m_israw s1 = true /\ bound (m_blockdev s1) = true /\
    m_fsfile s1 = m_fsfile Mock.raw_0_99 /\
    exists l, calls e1 = (calls Mock.raw_0_99_env ++ l)%list /\
              forallb is_card_call l = true.
Proof.
  do 3 eexists. split; [reflexivity|].
  apply (X16_raw_mode_footprint (OpRead 512) Mock.raw_0_99 _
           Mock.raw_0_99_env _ (RRead 512 [])); try reflexivity.
  - discriminate.
  - simpl. split; [lia | reflexivity].
Defined.
